(** * Postman subset generator: the collection filters of
    [build/postman_operations.py] and the exit-code boundary of
    [build/generate_postman_collection_subset.py].

    The Python functions work on the values that [json.load] produces:
    [dict] (string keys, insertion ordered), [list], [str], [int], [float],
    [bool] and [None].  The [logger] argument of every function only writes
    log lines and is left out of the embedding.  The functions on trees are
    total: the interpreter's recursion limit appears only in the object-store
    model, as fuel.  A [str] is a sequence of one-byte characters. *)

From Stdlib Require Import ZArith String List SpecFloat.
From stdpp Require Import gmap strings list.

Local Open Scope string_scope.
Local Open Scope list_scope.
Local Open Scope nat_scope.

(** ** Decoded JSON values *)

Unset Elimination Schemes.
Inductive json : Type :=
| JNull                                   (* None *)
| JBool (b : bool)
| JInt (z : Z)
| JFloat (f : spec_float)
| JStr (s : string)
| JArr (xs : list json)                   (* list *)
| JObj (kvs : list (string * json)).      (* dict, in insertion order *)
Set Elimination Schemes.

(** Structural induction that reaches the elements of lists and the values
    of dicts. *)
Definition json_ind (P : json → Prop)
    (HNull : P JNull) (HBool : ∀ b, P (JBool b)) (HInt : ∀ z, P (JInt z))
    (HFloat : ∀ f, P (JFloat f)) (HStr : ∀ s, P (JStr s))
    (HArr : ∀ xs, Forall P xs → P (JArr xs))
    (HObj : ∀ kvs, Forall (λ kv, P kv.2) kvs → P (JObj kvs)) : ∀ t, P t :=
  fix rec (t : json) : P t :=
    match t with
    | JNull => HNull
    | JBool b => HBool b
    | JInt z => HInt z
    | JFloat f => HFloat f
    | JStr s => HStr s
    | JArr xs =>
        HArr xs ((fix elems (l : list json) : Forall P l :=
                    match l with
                    | [] => List.Forall_nil P
                    | x :: l' => List.Forall_cons P x l' (rec x) (elems l')
                    end) xs)
    | JObj kvs =>
        HObj kvs ((fix vals (l : list (string * json)) : Forall (λ kv, P kv.2) l :=
                     match l with
                     | [] => List.Forall_nil _
                     | kv :: l' => List.Forall_cons (λ kv, P kv.2) kv l' (rec kv.2) (vals l')
                     end) kvs)
    end.

(** ** Dict operations on the insertion-ordered representation *)

Definition dict : Type := list (string * json).

(** The operations are shared with the object store below, where the values
    of a dict are references, hence the parameter [V]. *)

(** [d.get(k)]: the value under [k], if any. *)
Fixpoint dict_get {V : Type} (k : string) (d : list (string * V)) : option V :=
  match d with
  | [] => None
  | (k', v) :: d' => if String.eqb k' k then Some v else dict_get k d'
  end.

(** [k in d] *)
Definition dict_mem {V : Type} (k : string) (d : list (string * V)) : bool :=
  match dict_get k d with Some _ => true | None => false end.

(** [d[k] = v]: an existing key keeps its position, a new key goes last. *)
Fixpoint dict_set {V : Type} (k : string) (v : V) (d : list (string * V))
    : list (string * V) :=
  match d with
  | [] => [(k, v)]
  | (k', v') :: d' =>
      if String.eqb k' k then (k', v) :: d' else (k', v') :: dict_set k v d'
  end.

(** A dict holds each key once. *)
Fixpoint keys_distinct {V : Type} (d : list (string * V)) : bool :=
  match d with
  | [] => true
  | (k, _) :: d' => negb (dict_mem k d') && keys_distinct d'
  end.

(** Values [json.load] can produce: every dict, at any depth, has distinct
    keys. *)
Fixpoint wf (t : json) : bool :=
  match t with
  | JObj kvs => keys_distinct kvs && forallb (λ kv, wf kv.2) kvs
  | JArr xs => forallb wf xs
  | _ => true
  end.

(** ** Python operators on decoded JSON values *)

(** Truth value, as tested by [not x] and [if x]. *)
Definition truthy (t : json) : bool :=
  match t with
  | JNull => false
  | JBool b => b
  | JInt z => negb (Z.eqb z 0)
  | JFloat f => match f with S754_zero _ => false | _ => true end
  | JStr s => negb (String.eqb s "")
  | JArr xs => match xs with [] => false | _ => true end
  | JObj kvs => match kvs with [] => false | _ => true end
  end.

Inductive number : Type := NInt (z : Z) | NFloat (f : spec_float).

(** [bool] is a subclass of [int]; the three numeric types compare by
    value. *)
Definition as_number (t : json) : option number :=
  match t with
  | JBool b => Some (NInt (Z.b2z b))
  | JInt z => Some (NInt z)
  | JFloat f => Some (NFloat f)
  | _ => None
  end.

(** An [int] equals a [float] when they denote the same real number. *)
Definition int_eq_float (z : Z) (f : spec_float) : bool :=
  match f with
  | S754_zero _ => Z.eqb z 0
  | S754_finite s m e =>
      let sm := if s then Z.neg m else Z.pos m in
      if (0 <=? e)%Z then Z.eqb z (sm * 2 ^ e) else Z.eqb (z * 2 ^ (- e)) sm
  | _ => false
  end.

Definition number_eq (a b : number) : bool :=
  match a, b with
  | NInt x, NInt y => Z.eqb x y
  | NInt x, NFloat f => int_eq_float x f
  | NFloat f, NInt x => int_eq_float x f
  | NFloat f, NFloat g => SFeqb f g
  end.

(** [x] and [e] are both the NaN float.  [json.load] has one float object for
    NaN and returns that object wherever a document says [NaN], so two NaN
    values decoded in one run are the same object: [x is e] holds, although
    [x == e] does not.  NaN is the only decoded value that is not equal to
    itself, hence the only one on which a test [x is e or x == e] does not
    come down to [x == e]. *)
Definition shared_nan (x e : json) : bool :=
  match x, e with
  | JFloat S754_nan, JFloat S754_nan => true
  | _, _ => false
  end.

(** [a == b].  Two lists compare their elements, and two dicts their values,
    by [x is y or x == y]: inside a container the NaN object matches itself,
    while [NaN == NaN] on its own is false. *)
Fixpoint py_eq (a b : json) : bool :=
  match a with
  | JNull => match b with JNull => true | _ => false end
  | JStr s => match b with JStr s' => String.eqb s s' | _ => false end
  | JArr xs =>
      match b with
      | JArr ys =>
          (fix elems (l l' : list json) : bool :=
             match l, l' with
             | [], [] => true
             | x :: r, y :: r' => (shared_nan x y || py_eq x y) && elems r r'
             | _, _ => false
             end) xs ys
      | _ => false
      end
  | JObj d =>
      match b with
      | JObj d' =>
          Nat.eqb (length d) (length d') &&
          (fix vals (l : list (string * json)) : bool :=
             match l with
             | [] => true
             | (k, v) :: r =>
                 match dict_get k d' with
                 | Some v' => shared_nan v v' || py_eq v v'
                 | None => false
                 end && vals r
             end) d
      | _ => false
      end
  | _ =>
      match as_number a, as_number b with
      | Some x, Some y => number_eq x y
      | _, _ => false
      end
  end.

(** [x is e or x == e], the comparison that [in] makes on the elements of a
    list. *)
Definition py_is_or_eq (x e : json) : bool := shared_nan x e || py_eq x e.

(** ** Exceptions *)

Inductive exn : Type :=
| FileNotFoundError
| IsADirectoryError
| JSONDecodeError
| KeyError
| TypeError
| AttributeError
| PermissionError
| UnicodeDecodeError.

Inductive result (A : Type) : Type :=
| Ok (a : A)
| Raise (e : exn).
Arguments Ok {A} a.
Arguments Raise {A} e.

(** The error monad of a Python call that may raise; [x ← r; k] runs [k] on
    the value of [r] and lets an exception of [r] through. *)
#[global] Instance result_bind : MBind result :=
  λ A B (k : A → result B) (r : result A),
    match r with
    | Ok a => k a
    | Raise e => Raise e
    end.

(** [sub in s] on two strings. *)
Fixpoint is_substring (sub s : string) : bool :=
  String.prefix sub s ||
  match s with
  | EmptyString => false
  | String _ s' => is_substring sub s'
  end.

(** [x in c].  A list is searched for an element [e] with
    [x is e or x == e]; a dict looks the key up, which hashes [x] first; a
    string accepts only a string on the left; nothing else is a container. *)
Definition py_in (x c : json) : result bool :=
  match c with
  | JArr ys => Ok (existsb (py_is_or_eq x) ys)
  | JObj d =>
      match x with
      | JArr _ | JObj _ => Raise TypeError
      | JStr k => Ok (dict_mem k d)
      | _ => Ok false
      end
  | JStr s =>
      match x with
      | JStr sub => Ok (is_substring sub s)
      | _ => Raise TypeError
      end
  | _ => Raise TypeError
  end.

(** ** [remove_descriptions] *)

Fixpoint remove_descriptions (data : json) : json :=
  match data with
  | JObj kvs =>
      JObj ((fix loop (items : list (string * json)) (result : dict) : dict :=
               match items with
               | [] => result
               | (key, value) :: rest =>
                   if String.eqb key "description" then loop rest result
                   else loop rest (dict_set key (remove_descriptions value) result)
               end) kvs [])
  | JArr xs => JArr (List.map remove_descriptions xs)
  | _ => data
  end.

(** ** [filter_by_endpoint_type] *)

Definition is_None (t : json) : bool :=
  match t with JNull => true | _ => false end.

(** ['request' in data and isinstance(data['request'], dict) and
    'method' in data['request']]; when it holds, the value of
    [data['request']['method']]. *)
Definition request_method (data : dict) : option json :=
  match dict_get "request" data with
  | Some (JObj request) => dict_get "method" request
  | _ => None
  end.

(** The absent result is Python's [None], which is also what a JSON [null]
    decodes to. *)
Fixpoint filter_by_endpoint_type (data : json) (endpoint_type : string) : json :=
  match data with
  | JObj kvs =>
      let excluded :=
        match request_method kvs with
        | Some method => negb (py_eq method (JStr endpoint_type))
        | None => false
        end in
      if excluded then JNull
      else
        let result :=
          (fix loop (items : list (string * json)) (result : dict) : dict :=
             match items with
             | [] => result
             | (key, value) :: rest =>
                 let filtered_value := filter_by_endpoint_type value endpoint_type in
                 if is_None filtered_value then loop rest result
                 else loop rest (dict_set key filtered_value result)
             end) kvs [] in
        if dict_mem "item" kvs
           && negb (truthy (default (JArr []) (dict_get "item" result)))
        then JNull
        else JObj result
  | JArr xs =>
      let filtered_list :=
        (fix elems (l : list json) : list json :=
           match l with
           | [] => []
           | item :: l' =>
               let filtered_item := filter_by_endpoint_type item endpoint_type in
               if is_None filtered_item then elems l' else filtered_item :: elems l'
           end) xs in
      if truthy (JArr filtered_list) then JArr filtered_list else JNull
  | _ => data
  end.

(** ** [filter_by_whitelist_folders] *)

(** The characters of a string, as iterating over it yields them. *)
Fixpoint chars (s : string) : list json :=
  match s with
  | EmptyString => []
  | String c s' => JStr (String c EmptyString) :: chars s'
  end.

(** [for item in t]: the elements of a list, the keys of a dict, the
    characters of a string; nothing else is iterable. *)
Definition py_iter (t : json) : result (list json) :=
  match t with
  | JArr xs => Ok xs
  | JObj d => Ok (List.map (λ kv, JStr kv.1) d)
  | JStr s => Ok (chars s)
  | _ => Raise TypeError
  end.

(** [item.get(k)]: only a dict has the method; a missing key gives [None]. *)
Definition py_get (item : json) (k : string) : result json :=
  match item with
  | JObj d => Ok (default JNull (dict_get k d))
  | _ => Raise AttributeError
  end.

(** [[item for item in items if cond(item)]], stopping at the first
    exception. *)
Fixpoint comprehension_if (cond : json → result bool) (items : list json)
    : result (list json) :=
  match items with
  | [] => Ok []
  | item :: rest =>
      keep ← cond item;
      kept ← comprehension_if cond rest;
      Ok (if (keep : bool) then item :: kept else kept)
  end.

(** The value returned; the update in place of the argument is the subject
    of the object-store model further down. *)
Definition filter_by_whitelist_folders (data whitelist_folders : json) : result json :=
  match data with
  | JObj d =>
      match dict_get "item" d with
      | None => Ok data
      | Some items =>
          elements ← py_iter items;
          kept ← comprehension_if
                   (λ item, name ← py_get item "name"; py_in name whitelist_folders)
                   elements;
          Ok (JObj (dict_set "item" (JArr kept) d))
      end
  | _ => Ok data
  end.

(** ** Files, [read_whitelist_folders] and [main] *)

Inductive fs_entry : Type :=
| File (text : string)
| Directory.

(** [open(path, 'r')] followed by reading the text. *)
Definition open_r (fs : gmap string fs_entry) (path : string) : result string :=
  match fs !! path with
  | None => Raise FileNotFoundError
  | Some Directory => Raise IsADirectoryError
  | Some (File text) => Ok text
  end.

(** [data[k]] for a string [k]. *)
Definition py_getitem (data : json) (k : string) : result json :=
  match data with
  | JObj d =>
      match dict_get k d with
      | Some v => Ok v
      | None => Raise KeyError
      end
  | _ => Raise TypeError
  end.

Record args : Type := {
  input_file : string;
  output_file : string;
  remove_descriptions_flag : bool;       (* --remove-descriptions *)
  only_endpoints_type : option string;   (* --only-endpoints-type *)
  whitelist_folders : option string      (* --whitelist-folders *)
}.

(** What [sys.exit(main())] hands to the operating system for each handler
    of [main]. *)
Definition exit_code (e : exn) : Z :=
  match e with
  | FileNotFoundError => 2
  | JSONDecodeError => 3
  | KeyError => 3
  | _ => 1
  end.

Section Boundary.
(** The JSON codec and the outcome of opening a file for writing belong to
    the Python runtime. *)
Variable json_load : string → result json.
Variable json_dump : json → string.
Variable open_w : gmap string fs_entry → string → result unit.

Definition read_whitelist_folders (fs : gmap string fs_entry) (file_path : string)
    : result json :=
  text ← open_r fs file_path;
  data ← json_load text;
  present ← py_in (JStr "folders") data;
  if negb (present : bool) then Raise KeyError
  else py_getitem data "folders".

Definition read_postman_collection (fs : gmap string fs_entry) (file_path : string)
    : result json :=
  if negb (bool_decide (is_Some (fs !! file_path))) then Raise FileNotFoundError
  else
    text ← open_r fs file_path;
    json_load text.

(** The file system after a call that returns.  [open] empties the file
    before [json.dump] runs; what a call that raises in between leaves behind
    is not represented, an exception carries no file system here. *)
Definition write_postman_subset (collection : json) (file_path : string)
    (fs : gmap string fs_entry) : result (gmap string fs_entry) :=
  _ ← open_w fs file_path;
  Ok (<[file_path := File (json_dump collection)]> fs).

(** The body of the [try] block of [main]. *)
Definition main_body (fs : gmap string fs_entry) (a : args)
    : result (gmap string fs_entry) :=
  collection ← read_postman_collection fs (input_file a);
  collection ←
    match whitelist_folders a with
    | Some path =>
        if negb (String.eqb path "") then
          whitelist ← read_whitelist_folders fs path;
          collection ← filter_by_whitelist_folders collection whitelist;
          _ ← py_get collection "item";
          Ok collection
        else Ok collection
    | None => Ok collection
    end;
  let collection :=
    match only_endpoints_type a with
    | Some endpoint_type =>
        if negb (String.eqb endpoint_type "")
        then filter_by_endpoint_type collection endpoint_type
        else collection
    | None => collection
    end in
  let collection :=
    if remove_descriptions_flag a then remove_descriptions collection
    else collection in
  write_postman_subset collection (output_file a) fs.

Definition main (fs : gmap string fs_entry) (a : args) : Z :=
  match main_body fs a with
  | Ok _ => 0
  | Raise e => exit_code e
  end.
End Boundary.

(** ** The functions on an object store

    Whether a function updates its argument is not visible on values, so the
    three filters are given a second time on a store of Python objects:
    a dict or a list is an object at a location, a variable holds a
    reference to it, and [d[k] = v] and list growth overwrite the object in
    the store.  Strings, numbers, booleans and [None] are immutable and are
    kept as plain values.  Recursion on a store is bounded by [fuel], the
    interpreter's recursion limit; [None] is returned when it runs out or a
    reference dangles. *)

Module Heap.

Definition loc : Type := positive.

Inductive val : Type :=
| VNone
| VBool (b : bool)
| VInt (z : Z)
| VFloat (f : spec_float)
| VStr (s : string)
| VRef (l : loc).

Inductive obj : Type :=
| ODict (kvs : list (string * val))
| OList (xs : list val).

(** A fresh object; the store grows by one location. *)
Definition alloc (o : obj) (h : gmap loc obj) : loc * gmap loc obj :=
  let l := fresh (dom h) in (l, <[l := o]> h).

(** [result[key] = v] on the dict object at [result]. *)
Definition dict_store (result : loc) (key : string) (v : val) (h : gmap loc obj)
    : option (gmap loc obj) :=
  match h !! result with
  | Some (ODict d) => Some (<[result := ODict (dict_set key v d)]> h)
  | _ => None
  end.

(** The list object at [result] grows by [v]. *)
Definition list_append (result : loc) (v : val) (h : gmap loc obj)
    : option (gmap loc obj) :=
  match h !! result with
  | Some (OList xs) => Some (<[result := OList (xs ++ [v])]> h)
  | _ => None
  end.

(** [for x in items: body] *)
Fixpoint for_each {A : Type} (body : A → gmap loc obj → option (gmap loc obj))
    (items : list A) (h : gmap loc obj) : option (gmap loc obj) :=
  match items with
  | [] => Some h
  | x :: rest => h' ← body x h; for_each body rest h'
  end.

Definition is_None (v : val) : bool :=
  match v with VNone => true | _ => false end.

Definition truthy (h : gmap loc obj) (v : val) : option bool :=
  match v with
  | VNone => Some false
  | VBool b => Some b
  | VInt z => Some (negb (Z.eqb z 0))
  | VFloat f => Some (match f with S754_zero _ => false | _ => true end)
  | VStr s => Some (negb (String.eqb s ""))
  | VRef l =>
      match h !! l with
      | Some (ODict []) | Some (OList []) => Some false
      | Some _ => Some true
      | None => None
      end
  end.

(** [v != endpoint_type] is false only for the same string. *)
Definition eq_str (v : val) (s : string) : bool :=
  match v with VStr s' => String.eqb s' s | _ => false end.

Definition request_method (h : gmap loc obj) (data : list (string * val))
    : option val :=
  match dict_get "request" data with
  | Some (VRef l) =>
      match h !! l with
      | Some (ODict request) => dict_get "method" request
      | _ => None
      end
  | _ => None
  end.

Fixpoint remove_descriptions (fuel : nat) (data : val) (h : gmap loc obj)
    : option (val * gmap loc obj) :=
  match fuel with
  | 0 => None
  | S fuel' =>
      match data with
      | VRef l =>
          match h !! l with
          | Some (ODict kvs) =>
              let '(result, h0) := alloc (ODict []) h in
              h' ← for_each
                     (λ '(key, value) h,
                        if String.eqb key "description" then Some h
                        else
                          '(v, h1) ← remove_descriptions fuel' value h;
                          dict_store result key v h1)
                     kvs h0;
              Some (VRef result, h')
          | Some (OList xs) =>
              let '(result, h0) := alloc (OList []) h in
              h' ← for_each
                     (λ item h,
                        '(v, h1) ← remove_descriptions fuel' item h;
                        list_append result v h1)
                     xs h0;
              Some (VRef result, h')
          | None => None
          end
      | _ => Some (data, h)
      end
  end.

Fixpoint filter_by_endpoint_type (fuel : nat) (data : val) (endpoint_type : string)
    (h : gmap loc obj) : option (val * gmap loc obj) :=
  match fuel with
  | 0 => None
  | S fuel' =>
      match data with
      | VRef l =>
          match h !! l with
          | Some (ODict kvs) =>
              let excluded :=
                match request_method h kvs with
                | Some method => negb (eq_str method endpoint_type)
                | None => false
                end in
              if excluded then Some (VNone, h)
              else
                let '(result, h0) := alloc (ODict []) h in
                h' ← for_each
                       (λ '(key, value) h,
                          '(filtered_value, h1) ←
                            filter_by_endpoint_type fuel' value endpoint_type h;
                          if is_None filtered_value then Some h1
                          else dict_store result key filtered_value h1)
                       kvs h0;
                d ← match h' !! result with Some (ODict d) => Some d | _ => None end;
                item_truthy ←
                  match dict_get "item" d with
                  | Some v => truthy h' v
                  | None => Some false
                  end;
                if dict_mem "item" kvs && negb (item_truthy : bool) then Some (VNone, h')
                else Some (VRef result, h')
          | Some (OList xs) =>
              let '(filtered_list, h0) := alloc (OList []) h in
              h' ← for_each
                     (λ item h,
                        '(filtered_item, h1) ←
                          filter_by_endpoint_type fuel' item endpoint_type h;
                        if is_None filtered_item then Some h1
                        else list_append filtered_list filtered_item h1)
                     xs h0;
              nonempty ← truthy h' (VRef filtered_list);
              if (nonempty : bool) then Some (VRef filtered_list, h')
              else Some (VNone, h')
          | None => None
          end
      | _ => Some (data, h)
      end
  end.

(** The tree a value stands for in a store, read back to the given depth. *)
Fixpoint read (fuel : nat) (h : gmap loc obj) (v : val) : option json :=
  match v with
  | VNone => Some JNull
  | VBool b => Some (JBool b)
  | VInt z => Some (JInt z)
  | VFloat f => Some (JFloat f)
  | VStr s => Some (JStr s)
  | VRef l =>
      match fuel with
      | 0 => None
      | S fuel' =>
          match h !! l with
          | Some (OList xs) => JArr <$> mapM (read fuel' h) xs
          | Some (ODict kvs) =>
              JObj <$> mapM (λ kv, pair kv.1 <$> read fuel' h kv.2) kvs
          | None => None
          end
      end
  end.

(** [item.get(k)] *)
Definition get (h : gmap loc obj) (item : val) (k : string) : option (result val) :=
  match item with
  | VRef l =>
      match h !! l with
      | Some (ODict d) => Some (Ok (default VNone (dict_get k d)))
      | Some (OList _) => Some (Raise AttributeError)
      | None => None
      end
  | _ => Some (Raise AttributeError)
  end.

(** [[item for item in items if cond(item)]] where [cond] only reads the
    store. *)
Fixpoint comprehension_if (cond : val → option (result bool)) (items : list val)
    : option (result (list val)) :=
  match items with
  | [] => Some (Ok [])
  | item :: rest =>
      keep ← cond item;
      match keep with
      | Raise e => Some (Raise e)
      | Ok keep =>
          kept ← comprehension_if cond rest;
          match kept with
          | Raise e => Some (Raise e)
          | Ok kept => Some (Ok (if (keep : bool) then item :: kept else kept))
          end
      end
  end.

(** The elements that [for item in v] visits, as store values. *)
Definition iter (h : gmap loc obj) (v : val) : option (result (list val)) :=
  match v with
  | VRef l =>
      match h !! l with
      | Some (OList xs) => Some (Ok xs)
      | Some (ODict d) => Some (Ok (List.map (λ kv, VStr kv.1) d))
      | None => None
      end
  | VStr s =>
      Some (Ok (List.map (λ c, match c with JStr s => VStr s | _ => VNone end) (chars s)))
  | _ => Some (Raise TypeError)
  end.

(** [x is e].  Two references are identical when they point at the same
    object; [None], [True] and [False] are single objects, and so is the NaN
    float of [json.load].  Whether two equal numbers or strings are one
    object depends on the interpreter's caches; they are equal in any case,
    so [x is e or x == e] does not depend on it, and [false] is answered. *)
Definition identical (x e : val) : bool :=
  match x, e with
  | VRef l, VRef l' => Pos.eqb l l'
  | VNone, VNone => true
  | VBool b, VBool b' => Bool.eqb b b'
  | VFloat S754_nan, VFloat S754_nan => true
  | _, _ => false
  end.

(** [any(x is e or x == e for e in es)], the search that [x in c] makes in a
    list.  [==] changes nothing in the store and is taken on the trees read
    back. *)
Fixpoint any_is_or_eq (fuel : nat) (h : gmap loc obj) (x : val) (es : list val)
    : option bool :=
  match es with
  | [] => Some false
  | e :: rest =>
      if identical x e then Some true
      else
        n ← read fuel h x;
        t ← read fuel h e;
        if py_eq n t then Some true else any_is_or_eq fuel h x rest
  end.

(** [x in c] *)
Definition contains (fuel : nat) (h : gmap loc obj) (x c : val)
    : option (result bool) :=
  match c with
  | VRef l =>
      match h !! l with
      | Some (OList es) => Ok <$> any_is_or_eq fuel h x es
      | Some (ODict _) => n ← read fuel h x; w ← read fuel h c; Some (py_in n w)
      | None => None
      end
  | _ => n ← read fuel h x; w ← read fuel h c; Some (py_in n w)
  end.

(** The comprehension allocates nothing before its list is complete; the
    list is stored, then the reference to it is written into the argument
    under ["item"]. *)
Definition filter_by_whitelist_folders (fuel : nat) (data whitelist_folders : val)
    (h : gmap loc obj) : option (result val * gmap loc obj) :=
  match data with
  | VRef l =>
      match h !! l with
      | Some (ODict kvs) =>
          match dict_get "item" kvs with
          | None => Some (Ok data, h)
          | Some items =>
              elements ← iter h items;
              match elements with
              | Raise e => Some (Raise e, h)
              | Ok elements =>
                  kept ← comprehension_if
                           (λ item,
                              name ← get h item "name";
                              match name with
                              | Raise e => Some (Raise e)
                              | Ok name => contains fuel h name whitelist_folders
                              end)
                           elements;
                  match kept with
                  | Raise e => Some (Raise e, h)
                  | Ok kept =>
                      let '(new_items, h1) := alloc (OList kept) h in
                      h2 ← dict_store l "item" (VRef new_items) h1;
                      Some (Ok data, h2)
                  end
              end
          end
      | Some (OList _) => Some (Ok data, h)
      | None => None
      end
  | _ => Some (Ok data, h)
  end.

(** [repr_on P h v t]: in store [h] the value [v] stands for the tree [t],
    through objects at locations that satisfy [P] only. *)
Fixpoint repr_on (P : loc → Prop) (h : gmap loc obj) (v : val) (t : json)
    {struct t} : Prop :=
  match t with
  | JNull => v = VNone
  | JBool b => v = VBool b
  | JInt z => v = VInt z
  | JFloat f => v = VFloat f
  | JStr s => v = VStr s
  | JArr xs =>
      ∃ l vs, v = VRef l ∧ P l ∧ h !! l = Some (OList vs) ∧
        (fix elems (vs : list val) (xs : list json) {struct xs} : Prop :=
           match vs, xs with
           | [], [] => True
           | v :: vs', x :: xs' => repr_on P h v x ∧ elems vs' xs'
           | _, _ => False
           end) vs xs
  | JObj d =>
      ∃ l kvs, v = VRef l ∧ P l ∧ h !! l = Some (ODict kvs) ∧
        (fix vals (kvs : list (string * val)) (d : list (string * json))
             {struct d} : Prop :=
           match kvs, d with
           | [], [] => True
           | (k, v) :: kvs', (k', x) :: d' =>
               k = k' ∧ repr_on P h v x ∧ vals kvs' d'
           | _, _ => False
           end) kvs d
  end.

(** [repr h v t]: in store [h] the value [v] stands for the tree [t]. *)
Definition repr (h : gmap loc obj) (v : val) (t : json) : Prop :=
  repr_on (λ _, True) h v t.

End Heap.

(** Nesting depth of a tree: the recursion depth the filters need on it. *)
Fixpoint depth (t : json) : nat :=
  match t with
  | JArr xs => S (max_list (List.map depth xs))
  | JObj kvs => S (max_list (List.map (λ kv, depth kv.2) kvs))
  | _ => 0
  end.

(** ** Predicates the statements use *)

(** No dict, at any depth, has the key ["description"]. *)
Fixpoint no_description (t : json) : bool :=
  match t with
  | JObj kvs =>
      negb (dict_mem "description" kvs) && forallb (λ kv, no_description kv.2) kvs
  | JArr xs => forallb no_description xs
  | _ => true
  end.

Definition is_scalar (t : json) : bool :=
  match t with
  | JArr _ | JObj _ => false
  | _ => true
  end.

(** The loop [for key, value in data.items()] of both recursive functions,
    by itself: [f key value] is the value stored under [key], or nothing when
    the pair is skipped. *)
Fixpoint dict_build (f : string → json → option json)
    (items : list (string * json)) (result : dict) : dict :=
  match items with
  | [] => result
  | (key, value) :: rest =>
      match f key value with
      | Some v => dict_build f rest (dict_set key v result)
      | None => dict_build f rest result
      end
  end.

(** What each function stores for one pair. *)
Definition rd_entry (key : string) (value : json) : option json :=
  if String.eqb key "description" then None
  else Some (remove_descriptions value).

Definition present (t : json) : option json :=
  if is_None t then None else Some t.

Definition fe_entry (endpoint_type : string) (key : string) (value : json)
    : option json :=
  present (filter_by_endpoint_type value endpoint_type).

(** The list comprehension of [filter_by_endpoint_type], by itself. *)
Definition filtered_list (endpoint_type : string) (xs : list json) : list json :=
  omap (λ item, present (filter_by_endpoint_type item endpoint_type)) xs.

Definition is_str (s : string) (t : json) : bool :=
  match t with JStr s' => String.eqb s' s | _ => false end.

(** Every dict, at any depth, that has a [request] dict with a [method] has
    the method [endpoint_type]. *)
Fixpoint requests_match (endpoint_type : string) (t : json) : bool :=
  match t with
  | JObj kvs =>
      match request_method kvs with
      | Some method => is_str endpoint_type method
      | None => true
      end && forallb (λ kv, requests_match endpoint_type kv.2) kvs
  | JArr xs => forallb (requests_match endpoint_type) xs
  | _ => true
  end.

(** Some dict, at any depth, is a request with the method [endpoint_type]. *)
Fixpoint contains_request (endpoint_type : string) (t : json) : bool :=
  match t with
  | JObj kvs =>
      match request_method kvs with
      | Some method => is_str endpoint_type method
      | None => false
      end || existsb (λ kv, contains_request endpoint_type kv.2) kvs
  | JArr xs => existsb (contains_request endpoint_type) xs
  | _ => false
  end.

(** No list, at any depth, is empty. *)
Fixpoint no_empty_list (t : json) : bool :=
  match t with
  | JObj kvs => forallb (λ kv, no_empty_list kv.2) kvs
  | JArr xs => negb (Nat.eqb (length xs) 0) && forallb no_empty_list xs
  | _ => true
  end.

Definition is_obj (t : json) : bool :=
  match t with JObj _ => true | _ => false end.

(** The Items of a collection: a Folder, whose [item] is a list of Items, or
    else a Request. *)
Fixpoint item_tree (t : json) : bool :=
  match t with
  | JObj kvs =>
      if dict_mem "item" kvs then
        forallb (λ kv, negb (String.eqb kv.1 "item") ||
                       match kv.2 with
                       | JArr items => forallb item_tree items
                       | _ => false
                       end) kvs
      else bool_decide (is_Some (request_method kvs))
  | _ => false
  end.

(** [item.get('name')] of a dict. *)
Definition name_of (item : json) : json :=
  match item with
  | JObj d => default JNull (dict_get "name" d)
  | _ => JNull
  end.

(** The test of the whitelist comprehension on a dict item and a list. *)
Definition whitelisted (whitelist : list json) (item : json) : bool :=
  existsb (py_is_or_eq (name_of item)) whitelist.

(** No dict value and no list element, at any depth, is [None]. *)
Fixpoint no_null_inside (t : json) : bool :=
  match t with
  | JObj kvs => forallb (λ kv, negb (is_None kv.2) && no_null_inside kv.2) kvs
  | JArr xs => forallb (λ x, negb (is_None x) && no_null_inside x) xs
  | _ => true
  end.

Definition is_arr (t : json) : bool :=
  match t with JArr _ => true | _ => false end.

(** Every [item] key, at any depth, holds a list. *)
Fixpoint item_lists (t : json) : bool :=
  match t with
  | JObj kvs =>
      forallb (λ kv, (negb (String.eqb kv.1 "item") || is_arr kv.2)
                     && item_lists kv.2) kvs
  | JArr xs => forallb item_lists xs
  | _ => true
  end.

(** Every [item] key, at any depth, holds a value that is true in a
    test. *)
Fixpoint item_truthy (t : json) : bool :=
  match t with
  | JObj kvs =>
      forallb (λ kv, (negb (String.eqb kv.1 "item") || truthy kv.2)
                     && item_truthy kv.2) kvs
  | JArr xs => forallb item_truthy xs
  | _ => true
  end.

(** The trees the endpoint filter has nothing to do on. *)
Definition stable (endpoint_type : string) (t : json) : bool :=
  no_null_inside t && no_empty_list t && requests_match endpoint_type t
  && item_truthy t.

(** ** Relating the store to trees *)

Abbreviation store := (gmap Heap.loc Heap.obj).

(** Two dicts with the same keys in the same order and related values. *)
Definition dict_rel (R : Heap.val → json → Prop)
    (kvs : list (string * Heap.val)) (d : list (string * json)) : Prop :=
  Forall2 (λ kv kt, kv.1 = kt.1 ∧ R kv.2 kt.2) kvs d.

(** One iteration of a container-filling loop on trees: [g] is what the loop
    stores for an item, [tput] the update of the container. *)
Definition tstep {B K D : Type} (kt : B → K * json) (tput : K → json → D → D)
    (g : K → json → option json) (d : D) (b : B) : D :=
  match g (kt b).1 (kt b).2 with
  | Some t' => tput (kt b).1 t' d
  | None => d
  end.

(** The locations allocated after the loop's container [result] was. *)
Definition fresh_in (result : Heap.loc) (h : store) (l : Heap.loc) : Prop :=
  h !! l = None ∧ l ≠ result.

(** ** Sample documents *)

Definition request (name method : string) : json :=
  JObj [("name", JStr name); ("request", JObj [("method", JStr method)])].

Definition folder (name : string) (items : list json) : json :=
  JObj [("name", JStr name); ("item", JArr items)].

(** The collection of the scenario for the endpoint filter. *)
Definition two_requests : json :=
  JObj [("item", JArr [request "A" "GET"; request "B" "POST"])].

(** A folder whose only element is not a request. *)
Definition requestless_folder : json :=
  folder "F" [JObj [("name", JStr "x")]].

Definition nested_description : json :=
  JObj [("a", JObj [("description", JStr "d"); ("b", JInt 1)])].

Definition two_folders : json :=
  JObj [("info", JObj [("name", JStr "c")]);
        ("item", JArr [folder "X" [request "A" "GET"]; folder "Y" []])].

(** A parser for two file contents, enough to run [main] on. *)
Definition sample_json_load (text : string) : result json :=
  if String.eqb text "{}" then Ok (JObj [])
  else if String.eqb text "W" then Ok (JObj [("folders", JArr [JStr "X"])])
  else if String.eqb text "C" then Ok two_folders
  else Raise JSONDecodeError.

Definition sample_fs : gmap string fs_entry :=
  {[ "in.json" := File "C"; "w.json" := File "W";
     "nokey.json" := File "{}"; "bad.json" := File "not json" ]}.

Definition sample_args (whitelist : option string) : args :=
  {| input_file := "in.json"; output_file := "out.json";
     remove_descriptions_flag := false; only_endpoints_type := None;
     whitelist_folders := whitelist |}.

(** A store holding [two_folders] at location 1 and the whitelist
    [["X"]] at location 9. *)
Definition sample_store : gmap Heap.loc Heap.obj :=
  {[ 1%positive := Heap.ODict [("info", Heap.VRef 2%positive); ("item", Heap.VRef 3%positive)];
     2%positive := Heap.ODict [("name", Heap.VStr "c")];
     3%positive := Heap.OList [Heap.VRef 4%positive; Heap.VRef 8%positive];
     4%positive := Heap.ODict [("name", Heap.VStr "X"); ("item", Heap.VRef 5%positive)];
     5%positive := Heap.OList [Heap.VRef 6%positive];
     6%positive := Heap.ODict [("name", Heap.VStr "A"); ("request", Heap.VRef 7%positive)];
     7%positive := Heap.ODict [("method", Heap.VStr "GET")];
     8%positive := Heap.ODict [("name", Heap.VStr "Y"); ("item", Heap.VRef 10%positive)];
     9%positive := Heap.OList [Heap.VStr "X"];
     10%positive := Heap.OList [] ]}.

(** A collection whose first two items are named by NaN and by a list that
    holds NaN, a whitelist with the same two entries, and both in a store. *)
Definition nan_named : json :=
  JObj [("item", JArr [JObj [("name", JFloat S754_nan)];
                       JObj [("name", JArr [JFloat S754_nan])];
                       JObj [("name", JStr "X")]])].

Definition nan_whitelist : json :=
  JArr [JFloat S754_nan; JArr [JFloat S754_nan]].

Definition nan_store : gmap Heap.loc Heap.obj :=
  {[ 1%positive := Heap.ODict [("item", Heap.VRef 2%positive)];
     2%positive := Heap.OList [Heap.VRef 3%positive; Heap.VRef 4%positive;
                               Heap.VRef 6%positive];
     3%positive := Heap.ODict [("name", Heap.VFloat S754_nan)];
     4%positive := Heap.ODict [("name", Heap.VRef 5%positive)];
     5%positive := Heap.OList [Heap.VFloat S754_nan];
     6%positive := Heap.ODict [("name", Heap.VStr "X")];
     7%positive := Heap.OList [Heap.VFloat S754_nan; Heap.VRef 8%positive];
     8%positive := Heap.OList [Heap.VFloat S754_nan] ]}.

(** * Facts about dicts *)

Section DictFacts.
Context {V : Type}.
Implicit Types (d : list (string * V)) (k : string) (v : V).

Lemma dict_mem_cons k k' v d :
  dict_mem k ((k', v) :: d) = String.eqb k' k || dict_mem k d.
Proof. unfold dict_mem. simpl. by destruct (String.eqb k' k). Qed.

Lemma dict_mem_false k d : dict_mem k d = false ↔ dict_get k d = None.
Proof. unfold dict_mem. by destruct (dict_get k d). Qed.

Lemma dict_mem_true k d : dict_mem k d = true ↔ is_Some (dict_get k d).
Proof.
  unfold dict_mem. destruct (dict_get k d) as [v|].
  - split; [by eexists|done].
  - split; [done|by intros [? ?]].
Qed.

Lemma dict_get_elem k v d : dict_get k d = Some v → (k, v) ∈ d.
Proof.
  induction d as [|[k' v'] d IH]; simpl; [done|].
  destruct (String.eqb_spec k' k) as [->|]; intros H.
  - injection H as ->. left.
  - right. by apply IH.
Qed.

Lemma dict_get_None k d : dict_get k d = None ↔ k ∉ d.*1.
Proof.
  induction d as [|[k' v'] d IH]; simpl.
  - split; [intros _; apply not_elem_of_nil|done].
  - rewrite not_elem_of_cons.
    destruct (String.eqb_spec k' k) as [->|Hne].
    + split; [done|by intros [? _]].
    + rewrite IH. split; [by split|by intros [_ ?]].
Qed.

Lemma dict_set_fresh k v d :
  dict_mem k d = false → dict_set k v d = d ++ [(k, v)].
Proof.
  induction d as [|[k' v'] d IH]; simpl; [done|].
  rewrite dict_mem_cons. destruct (String.eqb k' k); simpl; [done|].
  intros H. by rewrite IH.
Qed.

Lemma dict_set_keys k v d :
  (dict_set k v d).*1 = if dict_mem k d then d.*1 else d.*1 ++ [k].
Proof.
  induction d as [|[k' v'] d IH]; [done|].
  rewrite dict_mem_cons. simpl.
  destruct (String.eqb k' k); simpl; [done|].
  fold (@fmap list _ _ _ (@fst string V) (dict_set k v d)).
  rewrite IH. by destruct (dict_mem k d).
Qed.

Lemma dict_get_set k k' v d :
  dict_get k' (dict_set k v d) = if String.eqb k k' then Some v else dict_get k' d.
Proof.
  induction d as [|[k0 v0] d IH]; simpl.
  - done.
  - destruct (String.eqb_spec k0 k) as [->|Hne]; simpl.
    + by destruct (String.eqb k k').
    + rewrite IH. destruct (String.eqb_spec k k') as [->|]; [|done].
      by destruct (String.eqb_spec k0 k').
Qed.

Lemma dict_mem_set k k' v d :
  dict_mem k' (dict_set k v d) = String.eqb k k' || dict_mem k' d.
Proof. unfold dict_mem. rewrite dict_get_set. by destruct (String.eqb k k'). Qed.

Lemma keys_distinct_NoDup d : keys_distinct d = true ↔ NoDup d.*1.
Proof.
  induction d as [|[k v] d IH]; simpl.
  - split; [constructor|done].
  - rewrite NoDup_cons, andb_true_iff, negb_true_iff, dict_mem_false,
      dict_get_None, IH. done.
Qed.

Lemma keys_distinct_set k v d :
  keys_distinct d = true → keys_distinct (dict_set k v d) = true.
Proof.
  rewrite !keys_distinct_NoDup, dict_set_keys.
  destruct (dict_mem k d) eqn:Hk; [done|].
  intros H. apply NoDup_app. split_and!; [done| |apply NoDup_singleton].
  intros k' Hin ->%list_elem_of_singleton.
  by apply dict_mem_false, dict_get_None in Hk.
Qed.

Lemma dict_set_Forall (P : string * V → Prop) k v d :
  P (k, v) → Forall P d → Forall P (dict_set k v d).
Proof.
  intros HP. induction 1 as [|[k' v'] d Hx Hd IH]; simpl.
  - by constructor.
  - destruct (String.eqb_spec k' k) as [->|]; by constructor.
Qed.
End DictFacts.

(** * Facts about the dict loop *)

Section DictBuild.
Variable f : string → json → option json.

Lemma dict_build_Forall (P : string * json → Prop) items acc :
  Forall P acc →
  (∀ k v v', (k, v) ∈ items → f k v = Some v' → P (k, v')) →
  Forall P (dict_build f items acc).
Proof.
  revert acc. induction items as [|[k v] items IH]; intros acc Hacc Hf; simpl.
  - done.
  - destruct (f k v) as [v'|] eqn:E.
    + apply IH.
      * apply dict_set_Forall; [|done]. eapply Hf; [left|done].
      * intros k0 v0 v0' Hin. apply Hf. by right.
    + apply IH; [done|]. intros k0 v0 v0' Hin. apply Hf. by right.
Qed.

Lemma dict_build_keys_distinct items acc :
  keys_distinct acc = true → keys_distinct (dict_build f items acc) = true.
Proof.
  revert acc. induction items as [|[k v] items IH]; intros acc Hacc; simpl.
  - done.
  - destruct (f k v); apply IH; [by apply keys_distinct_set|done].
Qed.

(** On the items of a real dict, whose keys are distinct, the loop appends
    the stored pairs in order. *)
Lemma dict_build_app items acc :
  NoDup items.*1 → (∀ k, k ∈ items.*1 → dict_mem k acc = false) →
  dict_build f items acc = acc ++ omap (λ kv, pair kv.1 <$> f kv.1 kv.2) items.
Proof.
  revert acc. induction items as [|[k v] items IH]; intros acc Hnd Hacc; simpl.
  - by rewrite app_nil_r.
  - apply NoDup_cons in Hnd as [Hk Hnd].
    destruct (f k v) as [v'|] eqn:E; simpl.
    + rewrite IH; [|done|].
      * rewrite dict_set_fresh; [|apply Hacc; left].
        by rewrite <- app_assoc.
      * intros k0 Hk0. rewrite dict_mem_set, (Hacc k0); [|by right].
        destruct (String.eqb_spec k k0) as [->|]; done.
    + apply IH; [done|]. intros k0 Hk0. apply Hacc. by right.
Qed.

Lemma dict_build_nil items :
  keys_distinct items = true →
  dict_build f items [] = omap (λ kv, pair kv.1 <$> f kv.1 kv.2) items.
Proof.
  intros Hd%keys_distinct_NoDup. by rewrite dict_build_app.
Qed.
End DictBuild.

(** * [remove_descriptions] *)

Lemma remove_descriptions_obj kvs :
  remove_descriptions (JObj kvs) = JObj (dict_build rd_entry kvs []).
Proof.
  simpl. f_equal. generalize (@nil (string * json)).
  induction kvs as [|[k v] kvs IH]; intros acc; [done|].
  unfold rd_entry at 1. simpl. by destruct (String.eqb k "description").
Qed.

Lemma remove_descriptions_arr xs :
  remove_descriptions (JArr xs) = JArr (List.map remove_descriptions xs).
Proof. done. Qed.

Lemma no_description_obj kvs :
  no_description (JObj kvs) = true ↔
  Forall (λ kv, kv.1 ≠ "description" ∧ no_description kv.2 = true) kvs.
Proof.
  simpl. rewrite andb_true_iff, negb_true_iff, dict_mem_false, dict_get_None.
  rewrite forallb_forall, Forall_forall. split.
  - intros [Hk Hv] [k v] Hin. split.
    + intros Heq. simpl in Heq. subst k. apply Hk.
      apply list_elem_of_fmap. by exists ("description", v).
    + apply Hv. by apply list_elem_of_In.
  - intros H. split.
    + intros ([k v] & Hk & Hin)%list_elem_of_fmap. simpl in Hk. subst k.
      by destruct (H _ Hin).
    + intros kv Hin%list_elem_of_In. by destruct (H _ Hin).
Qed.

Lemma wf_obj kvs :
  wf (JObj kvs) = true ↔
  keys_distinct kvs = true ∧ Forall (λ kv, wf kv.2 = true) kvs.
Proof.
  simpl. rewrite andb_true_iff, forallb_forall, Forall_forall.
  split; intros [? H]; (split; [done|]); intros kv Hin; apply H;
    by apply list_elem_of_In.
Qed.

Lemma wf_arr xs : wf (JArr xs) = true ↔ Forall (λ x, wf x = true) xs.
Proof.
  simpl. rewrite forallb_forall, Forall_forall.
  split; intros H x Hin; apply H; by apply list_elem_of_In.
Qed.

Lemma no_description_arr xs :
  no_description (JArr xs) = true ↔ Forall (λ x, no_description x = true) xs.
Proof.
  simpl. rewrite forallb_forall, Forall_forall.
  split; intros H x Hin; apply H; by apply list_elem_of_In.
Qed.

Lemma remove_descriptions_no_description t :
  no_description (remove_descriptions t) = true.
Proof.
  induction t as [| | | | |xs IH|kvs IH] using json_ind; try done.
  - apply no_description_arr. apply Forall_forall.
    intros y (x & <- & Hin)%list_elem_of_In%in_map_iff.
    rewrite Forall_forall in IH. apply IH. by apply list_elem_of_In.
  - rewrite remove_descriptions_obj. apply no_description_obj.
    apply dict_build_Forall; [constructor|].
    intros k v v' Hin. unfold rd_entry.
    destruct (String.eqb_spec k "description") as [|Hne]; [done|].
    intros [= <-]. split; [done|].
    rewrite Forall_forall in IH. by apply (IH (k, v)).
Qed.

Lemma remove_descriptions_wf t : wf (remove_descriptions t) = true.
Proof.
  induction t as [| | | | |xs IH|kvs IH] using json_ind; try done.
  - apply wf_arr. apply Forall_forall.
    intros y (x & <- & Hin)%list_elem_of_In%in_map_iff.
    rewrite Forall_forall in IH. apply IH. by apply list_elem_of_In.
  - rewrite remove_descriptions_obj. apply wf_obj. split.
    + by apply dict_build_keys_distinct.
    + apply dict_build_Forall; [constructor|].
      intros k v v' Hin. unfold rd_entry.
      destruct (String.eqb k "description"); [done|].
      intros [= <-]. rewrite Forall_forall in IH. by apply (IH (k, v)).
Qed.

(** On a real dict the result lists the pairs whose key is not
    ["description"], in the order of the argument, each with its value
    processed. *)
Lemma remove_descriptions_obj_wf kvs :
  keys_distinct kvs = true →
  remove_descriptions (JObj kvs) =
  JObj ((λ kv, (kv.1, remove_descriptions kv.2))
          <$> filter (λ kv, kv.1 ≠ "description") kvs).
Proof.
  intros Hd. rewrite remove_descriptions_obj, dict_build_nil by done. f_equal.
  clear Hd. induction kvs as [|[k v] kvs IH]; [done|].
  cbn [omap list_omap]. unfold rd_entry at 1. cbn [fst snd].
  destruct (String.eqb_spec k "description") as [->|Hne].
  - rewrite filter_cons_False by (intros H; by apply H). done.
  - rewrite filter_cons_True by done. cbn. by rewrite IH.
Qed.

(** A tree without any ["description"] key is returned as it is. *)
Lemma remove_descriptions_fixed t :
  wf t = true → no_description t = true → remove_descriptions t = t.
Proof.
  induction t as [| | | | |xs IH|kvs IH] using json_ind; try done.
  - intros Hwf%wf_arr Hnd%no_description_arr.
    rewrite remove_descriptions_arr. f_equal.
    induction xs as [|x xs IHxs]; [done|].
    apply Forall_cons in IH as [IHx IH]. apply Forall_cons in Hwf as [? ?].
    apply Forall_cons in Hnd as [? ?]. cbn [List.map]. f_equal; auto.
  - intros [Hd Hwf]%wf_obj Hnd%no_description_obj.
    rewrite remove_descriptions_obj_wf by done. f_equal. clear Hd.
    induction kvs as [|[k v] kvs IHkvs]; [done|].
    apply Forall_cons in IH as [IHx IH]. apply Forall_cons in Hwf as [? ?].
    apply Forall_cons in Hnd as [[? ?] ?]. simpl in *.
    rewrite filter_cons_True by done. cbn [fmap list_fmap fst snd].
    f_equal; [f_equal|]; auto.
Qed.

(** * [filter_by_endpoint_type] *)

Lemma present_None t : present t = None ↔ t = JNull.
Proof. unfold present. by destruct t. Qed.

Lemma present_Some t t' : present t = Some t' ↔ t' = t ∧ t' ≠ JNull.
Proof.
  unfold present. destruct t; simpl;
    (split; [by intros [= <-]|by intros [-> ?]]).
Qed.

Lemma filter_by_endpoint_type_arr xs e :
  filter_by_endpoint_type (JArr xs) e =
  if truthy (JArr (filtered_list e xs)) then JArr (filtered_list e xs) else JNull.
Proof.
  cbn [filter_by_endpoint_type].
  match goal with |- context [?F xs] => set (elems := F) end.
  assert (elems xs = filtered_list e xs) as ->; [|done].
  unfold filtered_list. induction xs as [|x xs IH]; [done|].
  cbn [omap list_omap]. unfold present at 1. cbn. rewrite IH.
  by destruct (is_None _).
Qed.

Lemma filter_by_endpoint_type_obj kvs e :
  filter_by_endpoint_type (JObj kvs) e =
  if match request_method kvs with
     | Some method => negb (py_eq method (JStr e))
     | None => false
     end
  then JNull
  else
    let result := dict_build (fe_entry e) kvs [] in
    if dict_mem "item" kvs
       && negb (truthy (default (JArr []) (dict_get "item" result)))
    then JNull else JObj result.
Proof.
  cbn [filter_by_endpoint_type].
  destruct (match request_method kvs with Some _ => _ | None => _ end); [done|].
  match goal with |- context [?F kvs []] => set (loop := F) end.
  assert (∀ acc, loop kvs acc = dict_build (fe_entry e) kvs acc) as ->; [|done].
  induction kvs as [|[k v] kvs IH]; intros acc; [done|].
  cbn. unfold fe_entry at 1, present. rewrite !IH. by destruct (is_None _).
Qed.

Lemma filter_by_endpoint_type_scalar t e :
  is_scalar t = true → filter_by_endpoint_type t e = t.
Proof. by destruct t. Qed.

Lemma py_eq_str a s : py_eq a (JStr s) = true → a = JStr s.
Proof.
  destruct a; simpl; try done.
  by intros ->%String.eqb_eq.
Qed.

Lemma dict_get_omap (f : string → json → option json) k kvs :
  NoDup kvs.*1 →
  dict_get k (omap (λ kv, pair kv.1 <$> f kv.1 kv.2) kvs) = dict_get k kvs ≫= f k.
Proof.
  induction kvs as [|[k' v] kvs IH]; [done|].
  intros [Hk Hnd]%NoDup_cons. cbn [fst] in Hk.
  cbn [omap list_omap fst snd dict_get].
  destruct (String.eqb_spec k' k) as [->|Hne].
  - cbn. destruct (f k v) as [v'|] eqn:E; cbn.
    + by rewrite String.eqb_refl.
    + rewrite IH by done.
      apply dict_get_None in Hk. by rewrite Hk.
  - destruct (f k' v) as [v'|]; cbn; [|by apply IH].
    destruct (String.eqb_spec k' k); [done|by apply IH].
Qed.

(** The shape of a result. *)
Lemma filter_by_endpoint_type_inv_obj t e r :
  filter_by_endpoint_type t e = JObj r →
  ∃ kvs, t = JObj kvs ∧ r = dict_build (fe_entry e) kvs [] ∧
         match request_method kvs with
         | Some method => py_eq method (JStr e) = true
         | None => True
         end.
Proof.
  destruct t as [| | | | |xs|kvs]; try done.
  - rewrite filter_by_endpoint_type_arr. by destruct (truthy _).
  - rewrite filter_by_endpoint_type_obj. intros H. exists kvs.
    destruct (request_method kvs) as [m|].
    + destruct (py_eq m (JStr e)); [|done]. cbn in H.
      destruct (_ && _); [done|]. by injection H as <-.
    + cbn in H. destruct (_ && _); [done|]. by injection H as <-.
Qed.

Lemma filter_by_endpoint_type_obj_cases kvs e :
  filter_by_endpoint_type (JObj kvs) e = JNull ∨
  filter_by_endpoint_type (JObj kvs) e = JObj (dict_build (fe_entry e) kvs []).
Proof.
  rewrite filter_by_endpoint_type_obj.
  destruct (match request_method kvs with Some _ => _ | None => _ end); [by left|].
  cbn. destruct (_ && _); [by left|by right].
Qed.

Lemma fe_entry_Some e k v v' :
  fe_entry e k v = Some v' ↔ v' = filter_by_endpoint_type v e ∧ v' ≠ JNull.
Proof.
  unfold fe_entry. apply present_Some.
Qed.

Lemma forallb_Forall {A} (p : A → bool) (l : list A) :
  forallb p l = true ↔ Forall (λ x, p x = true) l.
Proof.
  rewrite forallb_forall, Forall_forall.
  split; intros H x Hin; apply H; by apply list_elem_of_In.
Qed.

Lemma filtered_list_elem e xs y :
  y ∈ filtered_list e xs ↔
  ∃ x, x ∈ xs ∧ y = filter_by_endpoint_type x e ∧ y ≠ JNull.
Proof.
  unfold filtered_list. rewrite list_elem_of_omap.
  split; intros (x & Hin & H); exists x; (split; [done|]); by apply present_Some.
Qed.

Lemma filter_by_endpoint_type_no_empty_list t e :
  no_empty_list (filter_by_endpoint_type t e) = true.
Proof.
  induction t as [| | | | |xs IH|kvs IH] using json_ind; try done.
  - rewrite filter_by_endpoint_type_arr.
    destruct (filtered_list e xs) as [|y ys] eqn:E; [done|].
    cbn [truthy]. rewrite <- E. cbn [no_empty_list]. rewrite E at 1.
    cbn [length Nat.eqb negb andb]. apply forallb_Forall, Forall_forall.
    intros z (x & Hin & -> & _)%filtered_list_elem.
    rewrite Forall_forall in IH. by apply IH.
  - destruct (filter_by_endpoint_type_obj_cases kvs e) as [->| ->]; [done|].
    cbn [no_empty_list]. apply forallb_Forall.
    apply dict_build_Forall; [constructor|].
    intros k v v' Hin [-> _]%fe_entry_Some.
    rewrite Forall_forall in IH. by apply (IH (k, v)).
Qed.

Lemma filter_by_endpoint_type_inv_obj_absurd kvs e xs :
  filter_by_endpoint_type (JObj kvs) e = JArr xs → False.
Proof. by destruct (filter_by_endpoint_type_obj_cases kvs e) as [->| ->]. Qed.

Lemma filter_by_endpoint_type_obj_result kvs e r :
  keys_distinct kvs = true →
  filter_by_endpoint_type (JObj kvs) e = JObj r →
  r = omap (λ kv, pair kv.1 <$> fe_entry e kv.1 kv.2) kvs
  ∧ (∀ k, dict_get k r = dict_get k kvs ≫= fe_entry e k)
  ∧ (∀ method, request_method kvs = Some method → method = JStr e).
Proof.
  intros Hd (kvs' & [= <-] & -> & Hm)%filter_by_endpoint_type_inv_obj.
  rewrite dict_build_nil by done. split_and!; [done| |].
  - intros k. apply dict_get_omap. by apply keys_distinct_NoDup.
  - intros m Hreq. rewrite Hreq in Hm. by apply py_eq_str.
Qed.

Lemma request_method_Some kvs m :
  request_method kvs = Some m ↔
  ∃ request, dict_get "request" kvs = Some (JObj request) ∧
             dict_get "method" request = Some m.
Proof.
  unfold request_method. destruct (dict_get "request" kvs) as [[]|]; split;
    try done; try (by intros (? & [=] & _)).
  - intros H. by eexists.
  - by intros (? & [= <-] & ?).
Qed.

Lemma filter_by_endpoint_type_requests_match t e :
  wf t = true → requests_match e (filter_by_endpoint_type t e) = true.
Proof.
  induction t as [| | | | |xs IH|kvs IH] using json_ind; try done.
  - intros Hwf%wf_arr. rewrite filter_by_endpoint_type_arr.
    destruct (truthy _); [|done]. cbn [requests_match].
    apply forallb_Forall, Forall_forall.
    intros z (x & Hin & -> & _)%filtered_list_elem.
    rewrite Forall_forall in IH, Hwf. apply IH; [done|by apply Hwf].
  - intros [Hd Hwf]%wf_obj.
    destruct (filter_by_endpoint_type (JObj kvs) e) as [| | | | |?|r] eqn:E;
      try done.
    { by apply filter_by_endpoint_type_inv_obj_absurd in E. }
    destruct (filter_by_endpoint_type_obj_result _ _ _ Hd E) as (Hr & Hget & Hm).
    cbn [requests_match]. apply andb_true_iff. split.
    + destruct (request_method r) as [m|] eqn:Hreq; [|done].
      apply request_method_Some in Hreq as (rr & Hrr & Hmeth).
      rewrite Hget in Hrr.
      destruct (dict_get "request" kvs) as [v0|] eqn:Hv0; [|done].
      cbn in Hrr. apply fe_entry_Some in Hrr as [Hrr _]. symmetry in Hrr.
      assert (wf v0 = true) as Hwf0.
      { rewrite Forall_forall in Hwf.
        by apply (Hwf ("request", v0)), dict_get_elem. }
      destruct (filter_by_endpoint_type_inv_obj _ _ _ Hrr) as (dr & -> & _ & _).
      apply wf_obj in Hwf0 as [Hdr _].
      destruct (filter_by_endpoint_type_obj_result _ _ _ Hdr Hrr) as (_ & Hget' & _).
      rewrite Hget' in Hmeth.
      destruct (dict_get "method" dr) as [m0|] eqn:Hm0; [|done].
      cbn in Hmeth. apply fe_entry_Some in Hmeth as [-> _].
      rewrite (Hm m0).
      * cbn. apply String.eqb_refl.
      * apply request_method_Some. by exists dr.
    + apply forallb_Forall. rewrite Hr. apply Forall_forall.
      intros [k v'] ([k0 v0] & Hin & Hf)%list_elem_of_omap.
      cbn in Hf. destruct (fe_entry e k0 v0) as [v1|] eqn:Hfe; [|done].
      injection Hf as <- <-. apply fe_entry_Some in Hfe as [-> _].
      rewrite Forall_forall in IH, Hwf. cbn.
      apply (IH (k0, v0)); [done|]. by apply (Hwf (k0, v0)).
Qed.

Lemma existsb_false_Forall {A} (p : A → bool) (l : list A) :
  existsb p l = false ↔ Forall (λ x, p x = false) l.
Proof.
  induction l as [|x l IH]; cbn.
  - split; [constructor|done].
  - rewrite orb_false_iff, Forall_cons, IH. done.
Qed.

Lemma filtered_list_nil e xs :
  filtered_list e xs = [] ↔ Forall (λ x, filter_by_endpoint_type x e = JNull) xs.
Proof.
  unfold filtered_list. induction xs as [|x xs IH]; cbn.
  - split; [constructor|done].
  - rewrite Forall_cons, <- IH, <- present_None.
    destruct (present _); cbn; split; try done; by intros [? ?].
Qed.

Lemma item_tree_folder kvs v :
  item_tree (JObj kvs) = true → dict_get "item" kvs = Some v →
  ∃ items, v = JArr items ∧ forallb item_tree items = true.
Proof.
  intros Hit Hget. cbn [item_tree] in Hit.
  assert (dict_mem "item" kvs = true) as Hmem.
  { apply dict_mem_true. by eexists. }
  rewrite Hmem in Hit. rewrite forallb_Forall, Forall_forall in Hit.
  specialize (Hit _ (dict_get_elem _ _ _ Hget)). cbn in Hit.
  destruct v; try done. by eexists.
Qed.

(** An Item, or a list of Items, without a request of the wanted method
    filters to nothing. *)
Lemma filter_by_endpoint_type_prunes t e :
  wf t = true → contains_request e t = false →
  (item_tree t = true ∨ ∃ items, t = JArr items ∧ forallb item_tree items = true) →
  filter_by_endpoint_type t e = JNull.
Proof.
  induction t as [| | | | |xs IH|kvs IH] using json_ind;
    intros Hwf Hc [Hit|(items & Heq & Hits)]; try done.
  - injection Heq as <-. rewrite filter_by_endpoint_type_arr.
    assert (filtered_list e xs = []) as ->; [|done].
    apply filtered_list_nil. apply wf_arr in Hwf.
    cbn [contains_request] in Hc. apply existsb_false_Forall in Hc.
    apply forallb_Forall in Hits.
    rewrite Forall_forall in IH, Hwf, Hc, Hits |- *.
    intros x Hin. apply IH; auto.
  - apply wf_obj in Hwf as [Hd Hwf].
    cbn [contains_request] in Hc. apply orb_false_iff in Hc as [Hreq Hc].
    apply existsb_false_Forall in Hc.
    rewrite filter_by_endpoint_type_obj.
    destruct (dict_get "item" kvs) as [v|] eqn:Hitem.
    + destruct (item_tree_folder _ _ Hit Hitem) as (items & -> & Hits).
      cbn zeta. rewrite dict_build_nil, dict_get_omap, Hitem
        by (done || by apply keys_distinct_NoDup).
      assert (dict_mem "item" kvs = true) as ->.
      { apply dict_mem_true. by eexists. }
      pose proof (dict_get_elem _ _ _ Hitem) as Hin.
      rewrite Forall_forall in IH, Hwf, Hc.
      specialize (IH _ Hin (Hwf _ Hin) (Hc _ Hin)). cbn [snd] in IH.
      cbn. unfold fe_entry. rewrite IH by (right; by eexists).
      by repeat case_match.
    + cbn [item_tree] in Hit.
      assert (dict_mem "item" kvs = false) as Hmem by by apply dict_mem_false.
      rewrite Hmem in Hit. apply bool_decide_eq_true in Hit as [m Hm].
      rewrite Hm in Hreq |- *.
      destruct (py_eq m (JStr e)) eqn:Heq; [|done].
      apply py_eq_str in Heq as ->. cbn in Hreq.
      by rewrite String.eqb_refl in Hreq.
Qed.

Lemma filter_by_endpoint_type_item kvs items r e :
  keys_distinct kvs = true → dict_get "item" kvs = Some (JArr items) →
  filter_by_endpoint_type (JObj kvs) e = JObj r →
  dict_get "item" r = Some (JArr (filtered_list e items)).
Proof.
  intros Hd Hitem E.
  destruct (filter_by_endpoint_type_obj_result _ _ _ Hd E) as (_ & Hget & _).
  rewrite Hget, Hitem. cbn. unfold fe_entry.
  rewrite filter_by_endpoint_type_arr.
  destruct (truthy (JArr (filtered_list e items))) eqn:Ht; [done|].
  exfalso. revert E. rewrite filter_by_endpoint_type_obj.
  destruct (match request_method kvs with Some _ => _ | None => _ end); [done|].
  cbn zeta. rewrite dict_build_nil, dict_get_omap, Hitem
    by (done || by apply keys_distinct_NoDup).
  assert (dict_mem "item" kvs = true) as ->.
  { apply dict_mem_true. by eexists. }
  cbn. unfold fe_entry. rewrite filter_by_endpoint_type_arr, Ht. done.
Qed.

Lemma filtered_list_app e xs ys :
  filtered_list e (xs ++ ys) = filtered_list e xs ++ filtered_list e ys.
Proof. unfold filtered_list. apply omap_app. Qed.

Lemma filtered_list_skip e xs f ys :
  filter_by_endpoint_type f e = JNull →
  filtered_list e (xs ++ f :: ys) = filtered_list e xs ++ filtered_list e ys.
Proof.
  intros Hf. rewrite filtered_list_app. f_equal.
  unfold filtered_list. cbn. by rewrite Hf.
Qed.

Lemma filter_by_endpoint_type_item_empty kvs v e :
  keys_distinct kvs = true → dict_get "item" kvs = Some v →
  filter_by_endpoint_type v e = JNull ∨ filter_by_endpoint_type v e = JArr [] →
  filter_by_endpoint_type (JObj kvs) e = JNull.
Proof.
  intros Hd Hitem Hv. rewrite filter_by_endpoint_type_obj.
  cbn zeta. rewrite dict_build_nil, dict_get_omap, Hitem
    by (done || by apply keys_distinct_NoDup).
  assert (dict_mem "item" kvs = true) as ->.
  { apply dict_mem_true. by eexists. }
  cbn. unfold fe_entry.
  destruct Hv as [-> | ->]; cbn; by repeat case_match.
Qed.

Lemma filter_by_endpoint_type_omits kvs k xs e r :
  keys_distinct kvs = true → dict_get k kvs = Some (JArr xs) →
  filtered_list e xs = [] →
  filter_by_endpoint_type (JObj kvs) e = JObj r → dict_get k r = None.
Proof.
  intros Hd Hk Hnil E.
  destruct (filter_by_endpoint_type_obj_result _ _ _ Hd E) as (_ & Hget & _).
  rewrite Hget, Hk. cbn. unfold fe_entry.
  by rewrite filter_by_endpoint_type_arr, Hnil.
Qed.

(** * [filter_by_whitelist_folders] *)

Lemma comprehension_if_filter (cond : json → result bool) (p : json → bool) items :
  Forall (λ item, cond item = Ok (p item)) items →
  comprehension_if cond items = Ok (List.filter p items).
Proof.
  induction 1 as [|x xs Hx _ IH]; [done|].
  cbn. rewrite Hx. cbn. rewrite IH. cbn. by destruct (p x).
Qed.

Lemma whitelist_test_obj W item :
  is_obj item = true →
  (name ← py_get item "name"; py_in name (JArr W)) = Ok (whitelisted W item).
Proof. by destruct item. Qed.

Lemma filter_by_whitelist_folders_items d items W :
  dict_get "item" d = Some (JArr items) → forallb is_obj items = true →
  filter_by_whitelist_folders (JObj d) (JArr W) =
  Ok (JObj (dict_set "item" (JArr (List.filter (whitelisted W) items)) d)).
Proof.
  intros Hitem Hobj. unfold filter_by_whitelist_folders. rewrite Hitem. cbn.
  rewrite (comprehension_if_filter _ (whitelisted W)); [done|].
  apply forallb_Forall in Hobj. eapply Forall_impl; [exact Hobj|].
  intros item Hi. by apply whitelist_test_obj.
Qed.

(** A name that is NaN, or a list that holds NaN, is in a whitelist with the
    same entry, because the decoder's NaN is one object; compared with [==]
    alone the two would not match. *)
Example filter_by_whitelist_folders_shared_nan :
  filter_by_whitelist_folders nan_named nan_whitelist
  = Ok (JObj [("item", JArr [JObj [("name", JFloat S754_nan)];
                             JObj [("name", JArr [JFloat S754_nan])]])])
  ∧ py_eq (JFloat S754_nan) (JFloat S754_nan) = false
  ∧ py_eq (JArr [JFloat S754_nan]) (JArr [JFloat S754_nan]) = true.
Proof. done. Qed.

Lemma py_eq_null_l t : py_eq JNull t = true ↔ t = JNull.
Proof. by destruct t. Qed.

Lemma whitelisted_nameless W di :
  dict_get "name" di = None → JNull ∉ W → whitelisted W (JObj di) = false.
Proof.
  intros Hn HW. unfold whitelisted. cbn. rewrite Hn. cbn.
  apply existsb_false_Forall, Forall_forall. intros w Hw.
  destruct (py_eq JNull w) eqn:E; [|done].
  apply py_eq_null_l in E as ->. done.
Qed.

(** * The object store *)

Lemma repr_on_arr P (h : store) v xs :
  Heap.repr_on P h v (JArr xs) ↔
  ∃ l vs, v = Heap.VRef l ∧ P l ∧ h !! l = Some (Heap.OList vs) ∧
          Forall2 (Heap.repr_on P h) vs xs.
Proof.
  cbn [Heap.repr_on].
  assert (∀ vs,
    (fix elems (vs : list Heap.val) (xs : list json) {struct xs} : Prop :=
       match vs, xs with
       | [], [] => True
       | v :: vs', x :: xs' => Heap.repr_on P h v x ∧ elems vs' xs'
       | _, _ => False
       end) vs xs ↔ Forall2 (Heap.repr_on P h) vs xs) as Hfix.
  { induction xs as [|x xs IH]; intros [|v' vs].
    - split; [constructor|done].
    - split; [done|inversion 1].
    - split; [done|inversion 1].
    - by rewrite Forall2_cons, IH. }
  split; intros (l & vs & ? & ? & ? & ?); exists l, vs; split_and!; try done;
    by apply Hfix.
Qed.

Lemma repr_on_obj P (h : store) v d :
  Heap.repr_on P h v (JObj d) ↔
  ∃ l kvs, v = Heap.VRef l ∧ P l ∧ h !! l = Some (Heap.ODict kvs) ∧
           dict_rel (Heap.repr_on P h) kvs d.
Proof.
  cbn [Heap.repr_on].
  assert (∀ kvs,
    (fix vals (kvs : list (string * Heap.val)) (d : list (string * json))
         {struct d} : Prop :=
       match kvs, d with
       | [], [] => True
       | (k, v) :: kvs', (k', x) :: d' =>
           k = k' ∧ Heap.repr_on P h v x ∧ vals kvs' d'
       | _, _ => False
       end) kvs d ↔ dict_rel (Heap.repr_on P h) kvs d) as Hfix.
  { unfold dict_rel.
    induction d as [|[k' x] d IH]; intros [|[k v'] kvs].
    - split; [constructor|done].
    - split; [done|inversion 1].
    - split; [done|inversion 1].
    - rewrite Forall2_cons, IH. cbn. by rewrite (assoc and). }
  split; intros (l & kvs & ? & ? & ? & ?); exists l, kvs; split_and!; try done;
    by apply Hfix.
Qed.

Lemma repr_on_scalar P (h : store) v t :
  is_scalar t = true →
  Heap.repr_on P h v t ↔
  v = match t with
      | JBool b => Heap.VBool b
      | JInt z => Heap.VInt z
      | JFloat f => Heap.VFloat f
      | JStr s => Heap.VStr s
      | _ => Heap.VNone
      end.
Proof. by destruct t. Qed.

(** A representation survives any change of the store that keeps the
    objects it goes through. *)
Lemma repr_on_weaken (P Q : Heap.loc → Prop) (h h' : store) v t :
  (∀ l o, P l → h !! l = Some o → Q l ∧ h' !! l = Some o) →
  Heap.repr_on P h v t → Heap.repr_on Q h' v t.
Proof.
  intros Hk. revert v.
  induction t as [| | | | |xs IH|d IH] using json_ind; intros v; try done.
  - rewrite !repr_on_arr. intros (l & vs & -> & HP & Hl & Hvs).
    destruct (Hk _ _ HP Hl) as [HQ Hl'].
    exists l, vs. split_and!; try done.
    clear Hl Hl'. induction Hvs as [|v x vs xs Hv _ IHvs]; constructor.
    + apply Forall_cons in IH as [IHx _]. by apply IHx.
    + apply Forall_cons in IH as [_ IH]. by apply IHvs.
  - rewrite !repr_on_obj. intros (l & kvs & -> & HP & Hl & Hvs).
    destruct (Hk _ _ HP Hl) as [HQ Hl'].
    exists l, kvs. split_and!; try done.
    clear Hl Hl'. unfold dict_rel in *.
    induction Hvs as [|kv kt kvs d [Hkey Hv] _ IHvs]; constructor.
    + apply Forall_cons in IH as [IHx _]. split; [done|]. by apply IHx.
    + apply Forall_cons in IH as [_ IH]. by apply IHvs.
Qed.

Lemma repr_subseteq (h h' : store) v t :
  h ⊆ h' → Heap.repr h v t → Heap.repr h' v t.
Proof.
  intros Hsub. apply repr_on_weaken. intros l o _ Hl. split; [done|].
  by eapply lookup_weaken.
Qed.


(** The loops of the two recursive functions fill a fresh container object
    [result] while recursive calls allocate further objects.  One simulation
    covers both containers: [put] is the update of the object's content
    ([dict_set] or appending), [tput] the same update on trees, and [g] what
    the loop stores for an item on trees. *)
Section HeapLoop.
Context {A B K C D : Type}.
Variables (kv : A → K * Heap.val) (kt : B → K * json).
Variables (mk : C → Heap.obj) (put : K → Heap.val → C → C)
          (tput : K → json → D → D).
Variable rel : (Heap.val → json → Prop) → C → D → Prop.
Hypothesis rel_mono : ∀ (R R' : Heap.val → json → Prop) c d,
  (∀ v t, R v t → R' v t) → rel R c d → rel R' c d.
Hypothesis rel_put : ∀ (R : Heap.val → json → Prop) k v t c d,
  R v t → rel R c d → rel R (put k v c) (tput k t d).
Variable g : K → json → option json.
Variable ok : json → Prop.
Variable body : A → store → option store.
Variables (result : Heap.loc) (h : store).
Hypothesis result_fresh : h !! result = None.
Hypothesis step : ∀ a tv (hc : store) c,
  ok tv → Heap.repr hc (kv a).2 tv → hc !! result = Some (mk c) →
  ∃ h2, body a hc = Some h2 ∧
    match g (kv a).1 tv with
    | None => hc ⊆ h2
    | Some tv' =>
        ∃ v' (h1 : store), hc ⊆ h1 ∧
          Heap.repr_on (λ l, hc !! l = None) h1 v' tv' ∧
          h2 = <[result := mk (put (kv a).1 v' c)]> h1
    end.

Lemma for_each_sim items titems (hc : store) c d :
  Forall2 (λ a b, (kv a).1 = (kt b).1 ∧ Heap.repr h (kv a).2 (kt b).2
                  ∧ ok (kt b).2) items titems →
  h ⊆ hc → hc !! result = Some (mk c) →
  rel (Heap.repr_on (fresh_in result h) hc) c d →
  ∃ (h' : store) c',
    Heap.for_each body items hc = Some h' ∧ h ⊆ h' ∧
    h' !! result = Some (mk c') ∧
    rel (Heap.repr_on (fresh_in result h) h') c'
        (foldl (tstep kt tput g) d titems).
Proof.
  intros Hitems. revert hc c d.
  induction Hitems as [|a b items titems (Hkey & Hrepr & Hok) _ IH];
    intros hc c d Hsub Hres Hrel.
  - exists hc, c. by split_and!.
  - cbn [Heap.for_each foldl].
    destruct (step a (kt b).2 hc c) as (h2 & Hbody & Hstep);
      [done|by eapply repr_subseteq|done|].
    rewrite Hbody. cbn. unfold tstep at 2. rewrite <- Hkey.
    destruct (g (kv a).1 (kt b).2) as [tv'|].
    + destruct Hstep as (v' & h1 & Hsub1 & Hv' & ->).
      eapply IH.
      * apply insert_subseteq_r; [done|]. by etrans.
      * apply lookup_insert_eq.
      * apply rel_put.
        -- eapply repr_on_weaken; [|exact Hv'].
           intros l o Hl Hl1. split.
           ++ split; [by apply (lookup_weaken_None h hc)|]. intros ->. congruence.
           ++ rewrite lookup_insert_ne; [done|]. intros <-. congruence.
        -- eapply rel_mono; [|exact Hrel].
           intros v t. apply repr_on_weaken.
           intros l o [Hl Hne] Hlc. split; [done|].
           rewrite lookup_insert_ne by done. by eapply lookup_weaken.
    + eapply IH.
      * by etrans.
      * by eapply lookup_weaken.
      * eapply rel_mono; [|exact Hrel].
        intros v t. apply repr_on_weaken.
        intros l o Hl Hlc. split; [done|]. by eapply lookup_weaken.
Qed.
End HeapLoop.

Lemma dict_rel_set (R : Heap.val → json → Prop) k v t kvs d :
  R v t → dict_rel R kvs d → dict_rel R (dict_set k v kvs) (dict_set k t d).
Proof.
  intros Hv. unfold dict_rel.
  induction 1 as [|[k1 v1] [k2 t1] kvs d [Hk Hr] Hrest IH]; cbn in *.
  - by repeat constructor.
  - subst k2. destruct (String.eqb k1 k); constructor; done.
Qed.

Lemma dict_rel_get (R : Heap.val → json → Prop) k kvs d :
  dict_rel R kvs d → option_Forall2 R (dict_get k kvs) (dict_get k d).
Proof.
  unfold dict_rel.
  induction 1 as [|[k1 v1] [k2 t1] kvs d [Hk Hr] _ IH]; cbn in *.
  - constructor.
  - subst k2. destruct (String.eqb k1 k); [by constructor|done].
Qed.

Lemma dict_rel_mem (R : Heap.val → json → Prop) k kvs d :
  dict_rel R kvs d → dict_mem k kvs = dict_mem k d.
Proof.
  intros H. unfold dict_mem. by destruct (dict_rel_get R k kvs d H).
Qed.

Lemma dict_rel_impl (R R' : Heap.val → json → Prop) kvs d :
  (∀ v t, R v t → R' v t) → dict_rel R kvs d → dict_rel R' kvs d.
Proof.
  intros HR H. eapply Forall2_impl; [exact H|].
  intros kv kt [? ?]. split; [done|by apply HR].
Qed.

Lemma foldl_snoc_map {A B} (f : A → B) (acc : list B) (xs : list A) :
  foldl (λ d x, d ++ [f x]) acc xs = acc ++ List.map f xs.
Proof.
  revert acc. induction xs as [|x xs IH]; intros acc; cbn.
  - by rewrite app_nil_r.
  - by rewrite IH, <- app_assoc.
Qed.

Lemma foldl_snoc_omap {A B} (f : A → option B) (acc : list B) (xs : list A) :
  foldl (λ d x, match f x with Some y => d ++ [y] | None => d end) acc xs
  = acc ++ omap f xs.
Proof.
  revert acc. induction xs as [|x xs IH]; intros acc; cbn.
  - by rewrite app_nil_r.
  - rewrite IH. destruct (f x); [|done]. by rewrite <- app_assoc.
Qed.

Lemma foldl_dict_build (g : string → json → option json) acc items :
  foldl (λ d (b : string * json),
           match g b.1 b.2 with Some t' => dict_set b.1 t' d | None => d end)
        acc items
  = dict_build g items acc.
Proof.
  revert acc. induction items as [|[k v] items IH]; intros acc; cbn; [done|].
  rewrite IH. by destruct (g k v).
Qed.

Lemma depth_arr_lt xs n x : depth (JArr xs) < S n → x ∈ xs → depth x < n.
Proof.
  cbn. intros Hd Hin.
  assert (depth x ≤ max_list (List.map depth xs)); [|lia].
  apply max_list_elem_of_le, list_elem_of_In, in_map, list_elem_of_In, Hin.
Qed.

Lemma depth_obj_lt kvs n k v : depth (JObj kvs) < S n → (k, v) ∈ kvs → depth v < n.
Proof.
  cbn. intros Hd Hin.
  assert (depth v ≤ max_list (List.map (λ kv, depth kv.2) kvs)); [|lia].
  apply max_list_elem_of_le, list_elem_of_In.
  apply (in_map (λ kv, depth kv.2) kvs (k, v)), list_elem_of_In, Hin.
Qed.

Lemma fresh_lookup_None (h : store) : h !! fresh (dom h) = None.
Proof. apply not_elem_of_dom, is_fresh. Qed.

Lemma Forall2_elem_r {A B} (R : A → B → Prop) (P : B → Prop) l k :
  Forall2 R l k → (∀ y, y ∈ k → P y) → Forall2 (λ x y, R x y ∧ P y) l k.
Proof.
  induction 1 as [|x y l k Hxy _ IH]; intros HP; constructor.
  - split; [done|]. apply HP. left.
  - apply IH. intros z Hz. apply HP. by right.
Qed.

Lemma heap_remove_descriptions_refines fuel t (h : store) v :
  depth t < fuel → Heap.repr h v t →
  ∃ v' (h' : store),
    Heap.remove_descriptions fuel v h = Some (v', h') ∧ h ⊆ h' ∧
    Heap.repr_on (λ l, h !! l = None) h' v' (remove_descriptions t).
Proof.
  revert t h v. induction fuel as [|fuel IH]; intros t h v Hd Hr; [lia|].
  unfold Heap.repr in Hr.
  destruct t as [| | | | |xs|d];
    try (apply repr_on_scalar in Hr as ->; [|done];
         eexists _, h; by split_and!).
  - apply repr_on_arr in Hr as (l & vs & -> & _ & Hl & Hvs).
    cbn [Heap.remove_descriptions]. rewrite Hl. cbn [Heap.alloc].
    set (result := fresh (dom h)).
    edestruct (for_each_sim (K:=unit) (λ v, (tt, v)) (λ t, (tt, t))
                 Heap.OList (λ _ v c, c ++ [v]) (λ _ t d, d ++ [t])
                 (λ R, Forall2 R)
                 ltac:(intros R R' c d HR Hc; eapply Forall2_impl;
                       [exact Hc|exact HR])
                 ltac:(intros R k v t c d Hv Hc; apply Forall2_app;
                       [done|by repeat constructor])
                 (λ _ t, Some (remove_descriptions t))
                 (λ t, depth t < fuel)
                 (λ item h, '(v, h1) ← Heap.remove_descriptions fuel item h;
                            Heap.list_append result v h1)
                 result h (fresh_lookup_None h))
      as (h' & c' & Hloop & Hsub & Hres & Hrel).
    + intros a tv hc c Hok Ha Hc. cbn [fst snd] in *.
      destruct (IH tv hc a Hok Ha) as (v' & h1 & Hcall & Hsub1 & Hv').
      rewrite Hcall. cbn. unfold Heap.list_append.
      rewrite (lookup_weaken _ _ _ _ Hc Hsub1). eauto 10.
    + cbn [fst snd]. eapply Forall2_impl.
      * apply (Forall2_elem_r _ (λ t, depth t < fuel) _ _ Hvs).
        intros. by eapply depth_arr_lt.
      * intros a b [? ?]. by split_and!.
    + apply insert_subseteq, fresh_lookup_None.
    + apply lookup_insert_eq.
    + constructor.
    + fold result in Hloop. rewrite Hloop. cbn.
      exists (Heap.VRef result), h'. split_and!; [done..|].
      apply repr_on_arr. exists result, c'.
        split_and!; [done|apply fresh_lookup_None|done|].
        unfold tstep in Hrel. cbn [fst snd] in Hrel.
        rewrite foldl_snoc_map in Hrel. cbn in Hrel.
        eapply Forall2_impl; [exact Hrel|].
        intros a b. apply repr_on_weaken. by intros l' o [? ?] ?.
  - apply repr_on_obj in Hr as (l & kvs & -> & _ & Hl & Hkvs).
    cbn [Heap.remove_descriptions]. rewrite Hl. cbn [Heap.alloc].
    set (result := fresh (dom h)).
    edestruct (for_each_sim (K:=string) (λ kv, kv) (λ kt, kt)
                 Heap.ODict dict_set dict_set dict_rel dict_rel_impl dict_rel_set
                 rd_entry (λ t, depth t < fuel)
                 (λ '(key, value) h,
                    if String.eqb key "description" then Some h
                    else
                      '(v, h1) ← Heap.remove_descriptions fuel value h;
                      Heap.dict_store result key v h1)
                 result h (fresh_lookup_None h))
      as (h' & c' & Hloop & Hsub & Hres & Hrel).
    + intros [key value] tv hc c Hok Ha Hc. cbn [fst snd] in *.
      unfold rd_entry. destruct (String.eqb key "description"); [by exists hc|].
      destruct (IH tv hc value Hok Ha) as (v' & h1 & Hcall & Hsub1 & Hv').
      rewrite Hcall. cbn. unfold Heap.dict_store.
      rewrite (lookup_weaken _ _ _ _ Hc Hsub1). eauto 10.
    + eapply Forall2_impl.
      * apply (Forall2_elem_r _ (λ kt, depth kt.2 < fuel) _ _ Hkvs).
        intros [k t] Hin. by eapply depth_obj_lt.
      * intros a b [[? ?] ?]. by split_and!.
    + apply insert_subseteq, fresh_lookup_None.
    + apply lookup_insert_eq.
    + constructor.
    + fold result in Hloop. rewrite Hloop. cbn [mbind option_bind].
      exists (Heap.VRef result), h'. split_and!; [done..|].
      rewrite remove_descriptions_obj. apply repr_on_obj. exists result, c'.
      split_and!; [done|apply fresh_lookup_None|done|].
      unfold tstep in Hrel. rewrite foldl_dict_build in Hrel.
      eapply dict_rel_impl; [|exact Hrel].
      intros a b. apply repr_on_weaken. by intros l' o [? ?] ?.
Qed.

Lemma heap_is_None_repr P (h : store) v t :
  Heap.repr_on P h v t → Heap.is_None v = is_None t.
Proof.
  destruct t; cbn [Heap.repr_on]; try (by intros ->).
  - by intros (l & vs & -> & _).
  - by intros (l & vs & -> & _).
Qed.

Lemma heap_eq_str_repr P (h : store) v t e :
  Heap.repr_on P h v t → Heap.eq_str v e = py_eq t (JStr e).
Proof.
  destruct t; cbn [Heap.repr_on]; try (by intros ->).
  - by intros (l & vs & -> & _).
  - by intros (l & vs & -> & _).
Qed.

Lemma heap_truthy_repr P (h : store) v t :
  Heap.repr_on P h v t → Heap.truthy h v = Some (truthy t).
Proof.
  destruct t as [| | | | |xs|d]; try (by intros ->).
  - intros (l & vs & -> & _ & Hl & Hvs)%repr_on_arr. cbn. rewrite Hl.
    by destruct Hvs.
  - intros (l & vs & -> & _ & Hl & Hvs)%repr_on_obj. cbn. rewrite Hl.
    by destruct Hvs.
Qed.

Lemma heap_request_method_repr P (h : store) kvs d :
  dict_rel (Heap.repr_on P h) kvs d →
  option_Forall2 (Heap.repr_on P h) (Heap.request_method h kvs) (request_method d).
Proof.
  intros Hrel. unfold Heap.request_method, request_method.
  destruct (dict_rel_get _ "request" _ _ Hrel) as [v t Hv|]; [|constructor].
  destruct t as [| | | | |xs|dr]; try (rewrite Hv; constructor).
  - apply repr_on_arr in Hv as (l & vs & -> & _ & -> & _). constructor.
  - apply repr_on_obj in Hv as (l & rkvs & -> & _ & -> & Hr).
    by apply dict_rel_get.
Qed.

Lemma heap_filter_by_endpoint_type_refines fuel t e (h : store) v :
  depth t < fuel → Heap.repr h v t →
  ∃ v' (h' : store),
    Heap.filter_by_endpoint_type fuel v e h = Some (v', h') ∧ h ⊆ h' ∧
    Heap.repr_on (λ l, h !! l = None) h' v' (filter_by_endpoint_type t e).
Proof.
  revert t h v. induction fuel as [|fuel IH]; intros t h v Hd Hr; [lia|].
  unfold Heap.repr in Hr.
  destruct t as [| | | | |xs|d];
    try (apply repr_on_scalar in Hr as ->; [|done];
         eexists _, h; by split_and!).
  - apply repr_on_arr in Hr as (l & vs & -> & _ & Hl & Hvs).
    cbn [Heap.filter_by_endpoint_type]. rewrite Hl. cbn [Heap.alloc].
    set (result := fresh (dom h)).
    edestruct (for_each_sim (K:=unit) (λ v, (tt, v)) (λ t, (tt, t))
                 Heap.OList (λ _ v c, c ++ [v]) (λ _ t d, d ++ [t])
                 (λ R, Forall2 R)
                 ltac:(intros R R' c d HR Hc; eapply Forall2_impl;
                       [exact Hc|exact HR])
                 ltac:(intros R k v t c d Hv Hc; apply Forall2_app;
                       [done|by repeat constructor])
                 (λ _ t, present (filter_by_endpoint_type t e))
                 (λ t, depth t < fuel)
                 (λ item h,
                    '(filtered_item, h1) ←
                      Heap.filter_by_endpoint_type fuel item e h;
                    if Heap.is_None filtered_item then Some h1
                    else Heap.list_append result filtered_item h1)
                 result h (fresh_lookup_None h))
      as (h' & c' & Hloop & Hsub & Hres & Hrel).
    + intros a tv hc c Hok Ha Hc. cbn [fst snd] in *.
      destruct (IH tv hc a Hok Ha) as (v' & h1 & Hcall & Hsub1 & Hv').
      rewrite Hcall. cbn [mbind option_bind]. unfold present.
      rewrite (heap_is_None_repr _ _ _ _ Hv').
      destruct (is_None _); [by exists h1|].
      unfold Heap.list_append.
      rewrite (lookup_weaken _ _ _ _ Hc Hsub1). eauto 10.
    + cbn [fst snd]. eapply Forall2_impl.
      * apply (Forall2_elem_r _ (λ t, depth t < fuel) _ _ Hvs).
        intros. by eapply depth_arr_lt.
      * intros a b [? ?]. by split_and!.
    + apply insert_subseteq, fresh_lookup_None.
    + apply lookup_insert_eq.
    + constructor.
    + fold result in Hloop. rewrite Hloop. cbn [mbind option_bind].
      unfold tstep in Hrel. cbn [fst snd] in Hrel.
      rewrite foldl_snoc_omap in Hrel. cbn [app] in Hrel.
      fold (filtered_list e xs) in Hrel.
      rewrite filter_by_endpoint_type_arr.
      cbn [Heap.truthy]. rewrite Hres.
      destruct Hrel as [|v0 t0 c0 d0 Hv0 Hrest].
      * exists Heap.VNone, h'. by split_and!.
      * exists (Heap.VRef result), h'. split_and!; [done..|].
        cbn [truthy]. apply repr_on_arr. exists result, (v0 :: c0).
        split_and!; [done|apply fresh_lookup_None|done|].
        eapply Forall2_impl; [by constructor|].
        intros a b. apply repr_on_weaken. by intros l' o [? ?] ?.
  - apply repr_on_obj in Hr as (l & kvs & -> & _ & Hl & Hkvs).
    cbn [Heap.filter_by_endpoint_type]. rewrite Hl.
    rewrite filter_by_endpoint_type_obj.
    assert (match Heap.request_method h kvs with
            | Some method => negb (Heap.eq_str method e)
            | None => false
            end
            = match request_method d with
              | Some method => negb (py_eq method (JStr e))
              | None => false
              end) as ->.
    { destruct (heap_request_method_repr _ _ _ _ Hkvs) as [m tm Hm|]; [|done].
      by rewrite (heap_eq_str_repr _ _ _ _ e Hm). }
    cbn zeta.
    destruct (match request_method d with Some _ => _ | None => _ end).
    { exists Heap.VNone, h. by split_and!. }
    cbn [Heap.alloc]. set (result := fresh (dom h)).
    edestruct (for_each_sim (K:=string) (λ kv, kv) (λ kt, kt)
                 Heap.ODict dict_set dict_set dict_rel dict_rel_impl dict_rel_set
                 (fe_entry e) (λ t, depth t < fuel)
                 (λ '(key, value) h,
                    '(filtered_value, h1) ←
                      Heap.filter_by_endpoint_type fuel value e h;
                    if Heap.is_None filtered_value then Some h1
                    else Heap.dict_store result key filtered_value h1)
                 result h (fresh_lookup_None h))
      as (h' & c' & Hloop & Hsub & Hres & Hrel).
    + intros [key value] tv hc c Hok Ha Hc. cbn [fst snd] in *.
      destruct (IH tv hc value Hok Ha) as (v' & h1 & Hcall & Hsub1 & Hv').
      rewrite Hcall. cbn [mbind option_bind]. unfold fe_entry, present.
      rewrite (heap_is_None_repr _ _ _ _ Hv').
      destruct (is_None _); [by exists h1|].
      unfold Heap.dict_store.
      rewrite (lookup_weaken _ _ _ _ Hc Hsub1). eauto 10.
    + eapply Forall2_impl.
      * apply (Forall2_elem_r _ (λ kt, depth kt.2 < fuel) _ _ Hkvs).
        intros [k t] Hin. by eapply depth_obj_lt.
      * intros a b [[? ?] ?]. by split_and!.
    + apply insert_subseteq, fresh_lookup_None.
    + apply lookup_insert_eq.
    + constructor.
    + fold result in Hloop. rewrite Hloop. cbn [mbind option_bind].
      rewrite Hres. cbn [mbind option_bind].
      unfold tstep in Hrel. rewrite foldl_dict_build in Hrel.
      rewrite (dict_rel_mem _ "item" _ _ Hkvs).
      assert (match dict_get "item" c' with
              | Some v => Heap.truthy h' v
              | None => Some false
              end
              = Some (truthy (default (JArr [])
                                (dict_get "item" (dict_build (fe_entry e) d [])))))
        as ->.
      { destruct (dict_rel_get _ "item" _ _ Hrel) as [v t Hv|]; [|done].
        by apply heap_truthy_repr in Hv. }
      cbn [mbind option_bind].
      destruct (_ && _).
      * exists Heap.VNone, h'. by split_and!.
      * exists (Heap.VRef result), h'. split_and!; [done..|].
        apply repr_on_obj. exists result, c'.
        split_and!; [done|apply fresh_lookup_None|done|].
        eapply dict_rel_impl; [|exact Hrel].
        intros a b. apply repr_on_weaken. by intros l' o [? ?] ?.
Qed.

(** Whatever the store looks like, a run of either recursive function that
    returns has left every object of the initial store as it was. *)
Lemma for_each_preserves {A} (I : store → Prop)
    (body : A → store → option store) items (h h' : store) :
  (∀ x hc hc', I hc → body x hc = Some hc' → I hc') →
  I h → Heap.for_each body items h = Some h' → I h'.
Proof.
  intros Hbody. revert h. induction items as [|x items IH]; intros h Hh; cbn.
  - by intros [= <-].
  - destruct (body x h) as [h1|] eqn:E; [|done]. cbn. eauto.
Qed.

Lemma heap_remove_descriptions_frame fuel v (h : store) v' (h' : store) :
  Heap.remove_descriptions fuel v h = Some (v', h') → h ⊆ h'.
Proof.
  revert v h v' h'. induction fuel as [|fuel IH]; intros v h v' h'; [done|].
  cbn [Heap.remove_descriptions].
  destruct v as [| | | | |l]; try (by intros [= _ <-]).
  destruct (h !! l) as [[kvs|xs]|] eqn:Hl; [| |done]; cbn [Heap.alloc].
  - destruct (Heap.for_each _ kvs _) as [h1|] eqn:Hloop; [|done].
    intros [= _ <-]. revert Hloop.
    apply (for_each_preserves (λ hc, h ⊆ hc)).
    + intros [key value] hc hc' Hsub.
      destruct (String.eqb key "description"); [by intros [= <-]|].
      destruct (Heap.remove_descriptions fuel value hc) as [[v1 h2]|] eqn:E;
        [|done].
      cbn. unfold Heap.dict_store.
      destruct (h2 !! _) as [[c|]|]; [|done..]. intros [= <-].
      apply insert_subseteq_r; [apply fresh_lookup_None|].
      etrans; [exact Hsub|]. by eapply IH.
    + apply insert_subseteq, fresh_lookup_None.
  - destruct (Heap.for_each _ xs _) as [h1|] eqn:Hloop; [|done].
    intros [= _ <-]. revert Hloop.
    apply (for_each_preserves (λ hc, h ⊆ hc)).
    + intros item hc hc' Hsub.
      destruct (Heap.remove_descriptions fuel item hc) as [[v1 h2]|] eqn:E;
        [|done].
      cbn. unfold Heap.list_append.
      destruct (h2 !! _) as [[|c]|]; [done| |done]. intros [= <-].
      apply insert_subseteq_r; [apply fresh_lookup_None|].
      etrans; [exact Hsub|]. by eapply IH.
    + apply insert_subseteq, fresh_lookup_None.
Qed.

Lemma heap_filter_by_endpoint_type_frame fuel v e (h : store) v' (h' : store) :
  Heap.filter_by_endpoint_type fuel v e h = Some (v', h') → h ⊆ h'.
Proof.
  revert v h v' h'. induction fuel as [|fuel IH]; intros v h v' h'; [done|].
  cbn [Heap.filter_by_endpoint_type].
  destruct v as [| | | | |l]; try (by intros [= _ <-]).
  destruct (h !! l) as [[kvs|xs]|] eqn:Hl; [| |done]; cbn [Heap.alloc].
  - destruct (match Heap.request_method h kvs with Some _ => _ | None => _ end);
      [by intros [= _ <-]|].
    destruct (Heap.for_each _ kvs _) as [h1|] eqn:Hloop; [|done].
    cbn [mbind option_bind].
    intros Hret. assert (h1 = h') as <-.
    { destruct (h1 !! _) as [[c|]|]; [|done..]. cbn in Hret.
      destruct (match dict_get "item" c with Some _ => _ | None => _ end);
        [|done].
      cbn in Hret. by destruct (_ && _); injection Hret as _ <-. }
    clear Hret. revert Hloop.
    apply (for_each_preserves (λ hc, h ⊆ hc)).
    + intros [key value] hc hc' Hsub.
      destruct (Heap.filter_by_endpoint_type fuel value e hc)
        as [[v1 h2]|] eqn:E; [|done].
      cbn. apply IH in E.
      destruct (Heap.is_None v1); [intros [= <-]; by etrans|].
      unfold Heap.dict_store.
      destruct (h2 !! _) as [[c|]|]; [|done..]. intros [= <-].
      apply insert_subseteq_r; [apply fresh_lookup_None|]. by etrans.
    + apply insert_subseteq, fresh_lookup_None.
  - destruct (Heap.for_each _ xs _) as [h1|] eqn:Hloop; [|done].
    cbn [mbind option_bind].
    intros Hret. assert (h1 = h') as <-.
    { destruct (Heap.truthy h1 _) as [[]|]; [| |done]; by injection Hret as _ <-. }
    clear Hret. revert Hloop.
    apply (for_each_preserves (λ hc, h ⊆ hc)).
    + intros item hc hc' Hsub.
      destruct (Heap.filter_by_endpoint_type fuel item e hc)
        as [[v1 h2]|] eqn:E; [|done].
      cbn. apply IH in E.
      destruct (Heap.is_None v1); [intros [= <-]; by etrans|].
      unfold Heap.list_append.
      destruct (h2 !! _) as [[|c]|]; [done| |done]. intros [= <-].
      apply insert_subseteq_r; [apply fresh_lookup_None|]. by etrans.
    + apply insert_subseteq, fresh_lookup_None.
Qed.

Lemma heap_read_repr P fuel t (h : store) v :
  depth t ≤ fuel → Heap.repr_on P h v t → Heap.read fuel h v = Some t.
Proof.
  revert fuel v.
  induction t as [| | | | |xs IH|d IH] using json_ind; intros fuel v Hd;
    try (by intros ->; destruct fuel).
  - intros (l & vs & -> & _ & Hl & Hvs)%repr_on_arr.
    destruct fuel as [|fuel]; [cbn in Hd; lia|].
    cbn [Heap.read]. rewrite Hl.
    assert (mapM (Heap.read fuel h) vs = Some xs) as ->; [|done].
    apply mapM_Some. rewrite Forall_forall in IH.
    assert (∀ x, x ∈ xs → depth x ≤ fuel) as Hdx.
    { intros x Hin. apply Nat.lt_succ_r.
      apply (depth_arr_lt xs (S fuel)); [lia|done]. }
    clear Hd Hl. induction Hvs as [|v x vs xs Hv _ IHvs]; constructor.
    + apply IH; [left|apply Hdx; left|done].
    + apply IHvs.
      * intros y Hy. apply IH. by right.
      * intros y Hy. apply Hdx. by right.
  - intros (l & kvs & -> & _ & Hl & Hkvs)%repr_on_obj.
    destruct fuel as [|fuel]; [cbn in Hd; lia|].
    cbn [Heap.read]. rewrite Hl.
    assert (mapM (λ kv, pair kv.1 <$> Heap.read fuel h kv.2) kvs = Some d)
      as ->; [|done].
    apply mapM_Some. rewrite Forall_forall in IH.
    assert (∀ k x, (k, x) ∈ d → depth x ≤ fuel) as Hdx.
    { intros k x Hin. apply Nat.lt_succ_r.
      apply (depth_obj_lt d (S fuel) k); [lia|done]. }
    clear Hd Hl. unfold dict_rel in Hkvs.
    induction Hkvs as [|[k v] [k' x] kvs d [Hk Hv] _ IHvs]; constructor.
    + cbn in *. subst k'. rewrite (IH (k, x)); [done|left| |done].
      apply (Hdx k). left.
    + apply IHvs.
      * intros y Hy. apply IH. by right.
      * intros k0 y Hy. apply (Hdx k0). by right.
Qed.

(** The whitelist filter writes to its argument and to nothing else that
    existed before the call. *)
Lemma heap_filter_by_whitelist_folders_frame fuel data w (h : store) r (h' : store) :
  Heap.filter_by_whitelist_folders fuel data w h = Some (r, h') →
  h' = h ∨
  ∃ l kvs kept,
    data = Heap.VRef l ∧ h !! l = Some (Heap.ODict kvs) ∧
    dict_mem "item" kvs = true ∧ r = Ok data ∧
    h' = <[l := Heap.ODict (dict_set "item" (Heap.VRef (fresh (dom h))) kvs)]>
           (<[fresh (dom h) := Heap.OList kept]> h).
Proof.
  unfold Heap.filter_by_whitelist_folders.
  destruct data as [| | | | |l]; try (intros [= _ <-]; by left).
  destruct (h !! l) as [[kvs|xs]|] eqn:Hl; [| |done];
    [|intros [= _ <-]; by left].
  destruct (dict_get "item" kvs) as [items|] eqn:Hitem;
    [|intros [= _ <-]; by left].
  destruct (Heap.iter h items) as [[elements|]|]; cbn [mbind option_bind];
    [| |done]; [|intros [= _ <-]; by left].
  destruct (Heap.comprehension_if _ elements) as [[kept|]|];
    cbn [mbind option_bind]; [| |done]; [|intros [= _ <-]; by left].
  cbn [Heap.alloc]. unfold Heap.dict_store.
  rewrite lookup_insert_ne, Hl.
  - cbn. intros [= <- <-]. right. exists l, kvs, kept. split_and!; try done.
    apply dict_mem_true. by eexists.
  - intros Heq. pose proof (fresh_lookup_None h) as Hf.
    rewrite Heq in Hf. congruence.
Qed.

Lemma heap_comprehension_if_filter (R : Heap.val → json → Prop)
    (cond : Heap.val → option (result bool)) (p : json → bool) vs ts :
  Forall2 (λ v t, R v t ∧ cond v = Some (Ok (p t))) vs ts →
  ∃ kept, Heap.comprehension_if cond vs = Some (Ok kept) ∧
          Forall2 R kept (List.filter p ts).
Proof.
  induction 1 as [|v t vs ts [Hv Hc] _ (kept & Hk & Hrel)]; cbn.
  - by exists [].
  - rewrite Hc, Hk. cbn. destruct (p t); eexists; split; try done.
    by constructor.
Qed.

Lemma depth_name_of t : depth (name_of t) ≤ depth t.
Proof.
  destruct t as [| | | | | |d]; cbn [name_of]; try (cbn; lia).
  destruct (dict_get "name" d) as [v|] eqn:E; cbn [default]; [|cbn; lia].
  apply Nat.lt_le_incl, (depth_obj_lt d _ "name"); [lia|].
  by apply dict_get_elem.
Qed.

Lemma dict_get_of_elem {V} k (v : V) (d : list (string * V)) :
  NoDup d.*1 → (k, v) ∈ d → dict_get k d = Some v.
Proof.
  induction d as [|[k0 v0] d IH]; [by intros _ ?%elem_of_nil|].
  intros [Hk Hnd]%NoDup_cons [[= -> ->]|Hin]%elem_of_cons; cbn.
  - by rewrite String.eqb_refl.
  - destruct (String.eqb_spec k0 k) as [->|]; [|by apply IH].
    exfalso. apply Hk. apply list_elem_of_fmap. by exists (k, v).
Qed.

(** ** Identity and equality

    Every float but NaN equals itself. *)
Lemma SFeqb_refl f : f ≠ S754_nan → SFeqb f f = true.
Proof.
  destruct f as [s|s| |s m e]; try done; intros _; unfold SFeqb; cbn.
  - by destruct s.
  - by destruct s; rewrite Z.compare_refl, Pos.compare_cont_refl.
Qed.

(** On a tree whose dicts have distinct keys, [x is x or x == x] holds: what
    a test of identity on two containers would add to [==] is nothing. *)
Lemma py_is_or_eq_refl t : wf t = true → py_is_or_eq t t = true.
Proof.
  unfold py_is_or_eq.
  induction t as [|b|z|f|s|xs IH|d IH] using json_ind; intros Hwf.
  - done.
  - cbn. by rewrite Z.eqb_refl.
  - cbn. by rewrite Z.eqb_refl.
  - destruct f as [s|s| |s m e]; try done;
      cbn [shared_nan orb py_eq as_number number_eq]; by apply SFeqb_refl.
  - cbn. by rewrite String.eqb_refl.
  - apply wf_arr in Hwf. cbn [shared_nan py_eq orb].
    induction xs as [|x xs IHxs]; [done|].
    apply Forall_cons in IH as [IHx IH]. apply Forall_cons in Hwf as [Hx Hwf].
    rewrite (IHx Hx). by apply IHxs.
  - apply wf_obj in Hwf as [Hk Hwf]. apply keys_distinct_NoDup in Hk.
    cbn [shared_nan py_eq orb]. rewrite Nat.eqb_refl. cbn [andb].
    assert (∀ l, l ⊆ d →
      (fix vals (l : list (string * json)) : bool :=
         match l with
         | [] => true
         | (k, v) :: r =>
             match dict_get k d with
             | Some v' => shared_nan v v' || py_eq v v'
             | None => false
             end && vals r
         end) l = true) as Hvals; [|by apply Hvals].
    rewrite Forall_forall in IH. rewrite Forall_forall in Hwf.
    induction l as [|[k v] l IHl]; [done|]. intros Hsub.
    assert ((k, v) ∈ d) as Hin by (apply Hsub; left).
    rewrite (dict_get_of_elem k v d Hk Hin).
    pose proof (IH (k, v) Hin (Hwf (k, v) Hin)) as IHv. cbn [snd] in IHv.
    rewrite IHv. cbn [andb]. apply IHl. intros kv Hkv. apply Hsub. by right.
Qed.

(** A value stands for one tree only. *)
Lemma repr_on_functional P Q (h : store) v t1 t2 :
  Heap.repr_on P h v t1 → Heap.repr_on Q h v t2 → t1 = t2.
Proof.
  revert v t2.
  induction t1 as [|b|z|f|s|xs IH|d IH] using json_ind; intros v t2;
    try (intros ->; destruct t2; cbn;
         first [congruence | by intros (? & ? & ? & _)]).
  - intros (l & vs & -> & _ & Hl & Hvs)%repr_on_arr.
    destruct t2 as [| | | | |ys|d2]; try done.
    + intros (l' & vs' & [= <-] & _ & Hl' & Hvs')%repr_on_arr.
      rewrite Hl in Hl'. injection Hl' as <-. f_equal.
      clear Hl. revert ys Hvs'.
      induction Hvs as [|v x vs xs Hv _ IHvs]; intros ys Hys;
        inversion Hys as [|? y ? ys' Hy Hys']; subst; [done|].
      apply Forall_cons in IH as [IHx IH].
      f_equal; [by apply (IHx v)|by apply IHvs].
    + intros (l' & kvs' & [= <-] & _ & Hl' & _)%repr_on_obj. congruence.
  - intros (l & kvs & -> & _ & Hl & Hkvs)%repr_on_obj.
    destruct t2 as [| | | | |ys|d2]; try done.
    + intros (l' & vs' & [= <-] & _ & Hl' & _)%repr_on_arr. congruence.
    + intros (l' & kvs' & [= <-] & _ & Hl' & Hkvs')%repr_on_obj.
      rewrite Hl in Hl'. injection Hl' as <-. f_equal.
      clear Hl. unfold dict_rel in *. revert d2 Hkvs'.
      induction Hkvs as [|[k v] [k1 x] kvs d [Hk Hv] _ IHvs]; intros d2 Hd2;
        inversion Hd2 as [|? [k2 y] ? d2' [Hk2 Hy] Hd2']; subst; [done|].
      apply Forall_cons in IH as [IHx IH]. cbn in *. subst.
      f_equal; [f_equal; by apply (IHx v)|by apply IHvs].
Qed.

(** Identical values stand for trees that pass [x is e or x == e]. *)
Lemma heap_identical_repr (h : store) x e tx te :
  Heap.identical x e = true → Heap.repr h x tx → Heap.repr h e te →
  wf tx = true → py_is_or_eq tx te = true.
Proof.
  intros Hid Hx He Hwf.
  assert (x = e) as <-.
  { destruct x as [|b|z|[]|s|l], e as [|b'|z'|[]|s'|l']; try done; cbn in Hid.
    - by apply Bool.eqb_prop in Hid as ->.
    - by apply Pos.eqb_eq in Hid as ->. }
  rewrite <- (repr_on_functional _ _ h x tx te Hx He).
  by apply py_is_or_eq_refl.
Qed.

(** Values that are not identical do not both stand for the NaN object. *)
Lemma heap_not_identical_repr (h : store) x e tx te :
  Heap.identical x e = false → Heap.repr h x tx → Heap.repr h e te →
  shared_nan tx te = false.
Proof.
  intros Hid Hx He.
  destruct tx as [| | |[]| | |]; try done;
    destruct te as [| | |[]| | |]; try done.
  cbn in Hx, He. by subst.
Qed.

(** The search of a list object for [x] finds what [py_is_or_eq] finds on
    the trees. *)
Lemma heap_any_is_or_eq_repr fuel (h : store) x tx es W :
  Heap.repr h x tx → wf tx = true → depth tx ≤ fuel →
  Forall2 (Heap.repr h) es W → Forall (λ t, depth t ≤ fuel) W →
  Heap.any_is_or_eq fuel h x es = Some (existsb (py_is_or_eq tx) W).
Proof.
  intros Hx Hwf Hd Hes. induction Hes as [|e te es W He _ IH]; [done|].
  intros [Hde HdW]%Forall_cons. cbn [Heap.any_is_or_eq existsb].
  destruct (Heap.identical x e) eqn:Hid.
  - by rewrite (heap_identical_repr h x e tx te Hid Hx He Hwf).
  - rewrite (heap_read_repr _ fuel tx h x Hd Hx).
    rewrite (heap_read_repr _ fuel te h e Hde He). cbn [mbind option_bind].
    unfold py_is_or_eq at 1.
    rewrite (heap_not_identical_repr h x e tx te Hid Hx He). cbn [orb].
    destruct (py_eq tx te); [done|]. by apply IH.
Qed.

(** [x in c] on a list object. *)
Lemma heap_contains_repr fuel (h : store) x tx w W :
  Heap.repr h x tx → wf tx = true → depth tx ≤ fuel →
  Heap.repr h w (JArr W) → depth (JArr W) ≤ fuel →
  Heap.contains fuel h x w = Some (py_in tx (JArr W)).
Proof.
  intros Hx Hwf Hd (l & es & -> & _ & Hl & Hes)%repr_on_arr HdW.
  cbn [Heap.contains py_in]. rewrite Hl.
  rewrite (heap_any_is_or_eq_repr fuel h x tx es W); try done.
  apply Forall_forall. intros t Hin. apply Nat.lt_le_incl.
  apply (depth_arr_lt W fuel); [lia|done].
Qed.

Lemma wf_dict_get k v d :
  wf (JObj d) = true → dict_get k d = Some v → wf v = true.
Proof.
  intros [_ Hwf]%wf_obj Hget%dict_get_elem.
  rewrite Forall_forall in Hwf. apply (Hwf (k, v) Hget).
Qed.

Lemma wf_name_of t : wf t = true → wf (name_of t) = true.
Proof.
  destruct t as [| | | | | |d]; try done. intros Hwf. cbn [name_of].
  destruct (dict_get "name" d) as [v|] eqn:E; [|done].
  by apply (wf_dict_get "name" v d).
Qed.

Lemma heap_filter_by_whitelist_folders_refines fuel d items W (h : store) data w :
  Heap.repr h data (JObj d) → wf (JObj d) = true →
  dict_get "item" d = Some (JArr items) →
  forallb is_obj items = true → Heap.repr h w (JArr W) →
  depth (JObj d) ≤ fuel → depth (JArr W) ≤ fuel →
  ∃ l kvs kept,
    data = Heap.VRef l ∧ h !! l = Some (Heap.ODict kvs) ∧
    Heap.filter_by_whitelist_folders fuel data w h =
      Some (Ok data,
            <[l := Heap.ODict (dict_set "item" (Heap.VRef (fresh (dom h))) kvs)]>
              (<[fresh (dom h) := Heap.OList kept]> h)) ∧
    Forall2 (Heap.repr h) kept (List.filter (whitelisted W) items).
Proof.
  intros (l & kvs & -> & _ & Hl & Hkvs)%repr_on_obj Hwf Hitem Hobj Hw Hd HdW.
  pose proof (wf_dict_get "item" _ d Hwf Hitem) as Hwfi. apply wf_arr in Hwfi.
  pose proof (dict_rel_get _ "item" _ _ Hkvs) as Hget. rewrite Hitem in Hget.
  inversion Hget as [vi ti Hvi Hgi Heq|]; subst ti. symmetry in Hgi.
  apply repr_on_arr in Hvi as (li & vs & -> & _ & Hli & Hvs).
  destruct (heap_comprehension_if_filter (Heap.repr h)
              (λ item,
                 name ← Heap.get h item "name";
                 match name with
                 | Raise e => Some (Raise e)
                 | Ok name => Heap.contains fuel h name w
                 end)
              (whitelisted W) vs items) as (kept & Hkept & Hrel).
  { apply forallb_Forall in Hobj.
    assert (∀ x, x ∈ items → depth x < fuel) as Hdx.
    { intros x Hin.
      assert (depth (JArr items) < fuel).
      { apply (depth_obj_lt d _ "item"); [lia|]. by apply dict_get_elem. }
      apply (depth_arr_lt items); [lia|done]. }
    clear Hitem Hgi Hget Hli.
    induction Hvs as [|v t vs ts Hv _ IH]; constructor.
    - split; [done|]. apply Forall_cons in Hobj as [Ht _].
      apply Forall_cons in Hwfi as [Hwft _].
      destruct t as [| | | | | |dt]; try done.
      apply repr_on_obj in Hv as (lt & kt & -> & _ & Hlt & Hkt).
      cbn [Heap.get]. rewrite Hlt. cbn [mbind option_bind].
      assert (Heap.repr h (default Heap.VNone (dict_get "name" kt))
                (name_of (JObj dt))) as Hname.
      { cbn [name_of]. by destruct (dict_rel_get _ "name" _ _ Hkt). }
      rewrite (heap_contains_repr fuel h _ (name_of (JObj dt)) w W);
        [done|exact Hname|by apply wf_name_of| |done|done].
      etrans; [apply depth_name_of|]. apply Nat.lt_le_incl, Hdx. left.
    - apply IH.
      + by apply Forall_cons in Hobj as [_ ?].
      + by apply Forall_cons in Hwfi as [_ ?].
      + intros x Hx. apply Hdx. by right. }
  exists l, kvs, kept. split_and!; try done.
  unfold Heap.filter_by_whitelist_folders. rewrite Hl, Hgi.
  cbn [Heap.iter]. rewrite Hli. cbn [mbind option_bind]. rewrite Hkept.
  cbn [mbind option_bind Heap.alloc]. unfold Heap.dict_store.
  rewrite lookup_insert_ne, Hl; [done|].
  intros Heq. pose proof (fresh_lookup_None h) as Hf.
  rewrite Heq in Hf. congruence.
Qed.

(** On the store the search finds the NaN object and the list that holds it
    as well. *)
Example heap_filter_by_whitelist_folders_shared_nan :
  Heap.read 4 nan_store (Heap.VRef 1%positive) = Some nan_named
  ∧ Heap.read 4 nan_store (Heap.VRef 7%positive) = Some nan_whitelist
  ∧ ('(_, h') ← Heap.filter_by_whitelist_folders 4 (Heap.VRef 1%positive)
                  (Heap.VRef 7%positive) nan_store;
     h' !! fresh (dom nan_store))
    = Some (Heap.OList [Heap.VRef 3%positive; Heap.VRef 4%positive]).
Proof. split_and!; by vm_compute. Qed.

(** * The claims *)

(** C1, as the code has it.  For every JSON tree [t] whose dicts have
    distinct keys and every method string [M]: every dict left in
    [filter_by_endpoint_type t M] that has a [request] dict with a [method]
    has the method [M]; the [item] list of a result dict holds exactly the
    filtered elements that are present, so that a folder built of Items of
    the data model (folders and requests) without a request of method [M]
    underneath filters to [None] and contributes no element to its parent's
    [item] list; and such a document filters to [None] at the root. *)
Theorem filter_by_endpoint_type_sound (t : json) (M : string) :
  wf t = true →
  requests_match M (filter_by_endpoint_type t M) = true
  ∧ (∀ kvs items r,
       t = JObj kvs → dict_get "item" kvs = Some (JArr items) →
       filter_by_endpoint_type t M = JObj r →
       dict_get "item" r = Some (JArr (filtered_list M items))
       ∧ ∀ before f after,
           items = before ++ f :: after →
           item_tree f = true → contains_request M f = false →
           filter_by_endpoint_type f M = JNull
           ∧ filtered_list M items
             = filtered_list M before ++ filtered_list M after)
  ∧ (item_tree t = true → contains_request M t = false →
     filter_by_endpoint_type t M = JNull).
Proof.
  intros Hwf. split_and!.
  - by apply filter_by_endpoint_type_requests_match.
  - intros kvs items r -> Hitem Hr.
    apply wf_obj in Hwf as [Hd Hwf]. split.
    + by eapply filter_by_endpoint_type_item.
    + intros before f after -> Hf Hc.
      assert (filter_by_endpoint_type f M = JNull) as Hnull.
      { apply filter_by_endpoint_type_prunes; [|done|by left].
        rewrite Forall_forall in Hwf.
        specialize (Hwf _ (dict_get_elem _ _ _ Hitem)). cbn [snd] in Hwf.
        apply wf_arr in Hwf. rewrite Forall_forall in Hwf. apply Hwf.
        apply elem_of_app. right. left. }
      split; [done|]. by apply filtered_list_skip.
  - intros Hit Hc. apply filter_by_endpoint_type_prunes; [done..|by left].
Qed.

Lemma filter_by_endpoint_type_sound_witness :
  filter_by_endpoint_type two_requests "GET"
    = JObj [("item", JArr [request "A" "GET"])]
  ∧ requests_match "GET" (filter_by_endpoint_type two_requests "GET") = true
  ∧ filter_by_endpoint_type (JObj [("item", JArr [request "B" "POST"])]) "GET"
    = JNull.
Proof.
  split; [reflexivity|]. split.
  - apply (filter_by_endpoint_type_sound two_requests "GET"). reflexivity.
  - apply (filter_by_endpoint_type_sound
             (JObj [("item", JArr [request "B" "POST"])]) "GET");
      reflexivity.
Defined.

(** C1 as stated fails: a folder that holds a dict which is not a request has
    no request of the method underneath, and stays in its parent's [item]
    list. *)
Lemma filter_by_endpoint_type_keeps_requestless_folder :
  wf (JObj [("item", JArr [requestless_folder])]) = true
  ∧ contains_request "GET" requestless_folder = false
  ∧ filter_by_endpoint_type (JObj [("item", JArr [requestless_folder])]) "GET"
    = JObj [("item", JArr [requestless_folder])].
Proof. by vm_compute. Qed.

(** C2.  For every JSON tree whose dicts have distinct keys, the result of
    [remove_descriptions] has no key ["description"] in any dict at any
    depth; a dict keeps its other keys in their relative order, each with its
    value processed; a list keeps its elements, each processed; a tree
    without any ["description"] key, and so every scalar, is returned
    unchanged. *)
Theorem remove_descriptions_strips (t : json) :
  wf t = true →
  no_description (remove_descriptions t) = true
  ∧ (∀ kvs, t = JObj kvs →
       remove_descriptions t
       = JObj ((λ kv, (kv.1, remove_descriptions kv.2))
                 <$> filter (λ kv, kv.1 ≠ "description") kvs))
  ∧ (∀ xs, t = JArr xs →
       remove_descriptions t = JArr (remove_descriptions <$> xs))
  ∧ (no_description t = true → remove_descriptions t = t)
  ∧ (is_scalar t = true → remove_descriptions t = t).
Proof.
  intros Hwf. split_and!.
  - apply remove_descriptions_no_description.
  - intros kvs ->. apply remove_descriptions_obj_wf.
    by apply wf_obj in Hwf as [? _].
  - by intros xs ->.
  - by apply remove_descriptions_fixed.
  - by destruct t.
Qed.

Lemma remove_descriptions_strips_witness :
  wf nested_description = true
  ∧ remove_descriptions nested_description = JObj [("a", JObj [("b", JInt 1)])]
  ∧ no_description (remove_descriptions nested_description) = true.
Proof.
  split; [reflexivity|]. split; [reflexivity|].
  apply (remove_descriptions_strips nested_description). reflexivity.
Defined.

(** C3.  [remove_descriptions] is idempotent on every JSON tree. *)
Theorem remove_descriptions_idempotent (t : json) :
  remove_descriptions (remove_descriptions t) = remove_descriptions t.
Proof.
  apply remove_descriptions_fixed.
  - apply remove_descriptions_wf.
  - apply remove_descriptions_no_description.
Qed.

(** C7.  For every dict with the key [item]: when the filtered value of
    [item] is [None] or an empty list, the dict filters to [None]. *)
Theorem filter_by_endpoint_type_empty_item
    (kvs : dict) (v : json) (M : string) :
  keys_distinct kvs = true → dict_get "item" kvs = Some v →
  filter_by_endpoint_type v M = JNull ∨ filter_by_endpoint_type v M = JArr [] →
  filter_by_endpoint_type (JObj kvs) M = JNull.
Proof. apply filter_by_endpoint_type_item_empty. Qed.

Lemma filter_by_endpoint_type_empty_item_witness :
  filter_by_endpoint_type (folder "F" [request "B" "POST"]) "GET" = JNull.
Proof.
  apply (filter_by_endpoint_type_empty_item
           [("name", JStr "F"); ("item", JArr [request "B" "POST"])]
           (JArr [request "B" "POST"]) "GET").
  - reflexivity.
  - reflexivity.
  - left. reflexivity.
Defined.

(** C9.  [filter_by_endpoint_type] never returns an empty list: a list
    filters to [None] or to a list with a first element, and no list inside
    any result is empty. *)
Theorem filter_by_endpoint_type_never_empty_list
    (t : json) (xs : list json) (M : string) :
  filter_by_endpoint_type t M ≠ JArr []
  ∧ (filter_by_endpoint_type (JArr xs) M = JNull
     ∨ ∃ y ys, filter_by_endpoint_type (JArr xs) M = JArr (y :: ys))
  ∧ no_empty_list (filter_by_endpoint_type t M) = true.
Proof.
  split_and!.
  - intros H. pose proof (filter_by_endpoint_type_no_empty_list t M) as Hn.
    by rewrite H in Hn.
  - rewrite filter_by_endpoint_type_arr.
    destruct (filtered_list M xs) as [|y ys]; [by left|right]. by exists y, ys.
  - apply filter_by_endpoint_type_no_empty_list.
Qed.

(** C10.  A result dict has no key whose value filtered to an empty list,
    whatever the key: a request of the wanted method that carries
    ["response": []] is returned without that key. *)
Theorem filter_by_endpoint_type_omits_empty_lists
    (kvs : dict) (k : string) (xs : list json) (M : string) (r : dict) :
  keys_distinct kvs = true → dict_get k kvs = Some (JArr xs) →
  filtered_list M xs = [] →
  filter_by_endpoint_type (JObj kvs) M = JObj r →
  dict_get k r = None
  ∧ ∀ name,
      filter_by_endpoint_type
        (JObj [("name", JStr name); ("request", JObj [("method", JStr M)]);
               ("response", JArr [])]) M
      = JObj [("name", JStr name); ("request", JObj [("method", JStr M)])].
Proof.
  intros Hd Hk Hnil Hr. split.
  - by eapply filter_by_endpoint_type_omits.
  - intros name. rewrite filter_by_endpoint_type_obj. cbn.
    rewrite String.eqb_refl. done.
Qed.

Lemma filter_by_endpoint_type_omits_empty_lists_witness :
  dict_get "response"
    [("name", JStr "A"); ("request", JObj [("method", JStr "GET")])] = None.
Proof.
  apply (filter_by_endpoint_type_omits_empty_lists
           [("name", JStr "A"); ("request", JObj [("method", JStr "GET")]);
            ("response", JArr [])]
           "response" [] "GET"
           [("name", JStr "A"); ("request", JObj [("method", JStr "GET")])]);
    reflexivity.
Defined.

(** C4, as the code has it.  For every dict with an [item] list of dicts and
    every whitelist list [W], [filter_by_whitelist_folders] returns the dict
    with [item] replaced by the elements whose [name] value -- [None] when
    the element has no [name] -- is in [W] as Python's [in] finds it
    (identical to a member of [W] or equal to one), in their
    original order and themselves unchanged; an empty whitelist gives an
    empty [item] list; an argument that is not a dict, or a dict without
    [item], is returned as it is. *)
Theorem filter_by_whitelist_folders_spec (d : dict) (items W : list json) :
  dict_get "item" d = Some (JArr items) → forallb is_obj items = true →
  filter_by_whitelist_folders (JObj d) (JArr W)
    = Ok (JObj (dict_set "item" (JArr (List.filter (whitelisted W) items)) d))
  ∧ filter_by_whitelist_folders (JObj d) (JArr [])
    = Ok (JObj (dict_set "item" (JArr []) d))
  ∧ (∀ data w, is_obj data = false →
       filter_by_whitelist_folders data w = Ok data)
  ∧ (∀ d' w, dict_mem "item" d' = false →
       filter_by_whitelist_folders (JObj d') w = Ok (JObj d')).
Proof.
  intros Hitem Hobj. split_and!.
  - by apply filter_by_whitelist_folders_items.
  - rewrite (filter_by_whitelist_folders_items d items []) by done.
    do 4 f_equal. clear. by induction items.
  - intros data w Hdata. by destruct data.
  - intros d' w Hmem. cbn. apply dict_mem_false in Hmem. by rewrite Hmem.
Qed.

Lemma filter_by_whitelist_folders_spec_witness :
  filter_by_whitelist_folders two_folders (JArr [JStr "X"])
  = Ok (JObj [("info", JObj [("name", JStr "c")]);
              ("item", JArr [folder "X" [request "A" "GET"]])]).
Proof.
  apply (filter_by_whitelist_folders_spec
           [("info", JObj [("name", JStr "c")]);
            ("item", JArr [folder "X" [request "A" "GET"]; folder "Y" []])]
           [folder "X" [request "A" "GET"]; folder "Y" []] [JStr "X"]);
    reflexivity.
Defined.

(** C4 as stated fails on an [item] list with an element that is not a dict:
    [item.get] raises [AttributeError], also under an empty whitelist; and an
    element without [name] is kept when the whitelist holds [None]. *)
Lemma filter_by_whitelist_folders_not_total :
  filter_by_whitelist_folders (JObj [("item", JArr [JInt 1])]) (JArr [])
    = Raise AttributeError
  ∧ filter_by_whitelist_folders
      (JObj [("item", JArr [JObj [("id", JInt 1)]])]) (JArr [JNull])
    = Ok (JObj [("item", JArr [JObj [("id", JInt 1)]])]).
Proof. by vm_compute. Qed.

(** C5, as the code has it.  For every whitelist list [W] that does not
    hold [None] and every dict with an [item] list of dicts, an element
    without a [name] key is not in the resulting [item] list. *)
Theorem filter_by_whitelist_folders_nameless
    (d : dict) (items W : list json) (di : dict) :
  dict_get "item" d = Some (JArr items) → forallb is_obj items = true →
  JNull ∉ W → dict_get "name" di = None →
  ∃ kept,
    filter_by_whitelist_folders (JObj d) (JArr W)
      = Ok (JObj (dict_set "item" (JArr kept) d))
    ∧ JObj di ∉ kept.
Proof.
  intros Hitem Hobj HW Hname. exists (List.filter (whitelisted W) items). split.
  - by apply filter_by_whitelist_folders_items.
  - intros [_ Hin]%list_elem_of_In%filter_In.
    by rewrite whitelisted_nameless in Hin.
Qed.

Lemma filter_by_whitelist_folders_nameless_witness :
  ∃ kept,
    filter_by_whitelist_folders
      (JObj [("item", JArr [JObj [("id", JInt 1)]; folder "X" []])])
      (JArr [JStr "X"; JStr ""])
    = Ok (JObj (dict_set "item" (JArr kept)
                  [("item", JArr [JObj [("id", JInt 1)]; folder "X" []])]))
    ∧ JObj [("id", JInt 1)] ∉ kept.
Proof.
  apply (filter_by_whitelist_folders_nameless
           [("item", JArr [JObj [("id", JInt 1)]; folder "X" []])]
           [JObj [("id", JInt 1)]; folder "X" []] [JStr "X"; JStr ""]
           [("id", JInt 1)]).
  - reflexivity.
  - reflexivity.
  - intros H. repeat (apply elem_of_cons in H as [H|H]; [discriminate H|]).
    by apply elem_of_nil in H.
  - reflexivity.
Defined.

(** C5 as stated fails when the whitelist holds [None]: the element without
    [name] is kept and the named one is dropped. *)
Lemma filter_by_whitelist_folders_null_matches_nameless :
  filter_by_whitelist_folders
    (JObj [("item", JArr [JObj [("id", JInt 1)]; folder "X" []])])
    (JArr [JNull])
  = Ok (JObj [("item", JArr [JObj [("id", JInt 1)]])]).
Proof. by vm_compute. Qed.

(** C6.  [read_whitelist_folders] raises [FileNotFoundError] when the path
    does not exist, [JSONDecodeError] when the parser raises it, [KeyError]
    when the parsed dict has no [folders] key, and otherwise returns the
    value under [folders]; an exception of the reader leaves [main] through
    the handler of its class: exit code 2 for [FileNotFoundError], 3 for
    [JSONDecodeError] and for [KeyError]; [main] returns 0 when nothing is
    raised and 1 for every other exception. *)
Theorem read_whitelist_folders_outcomes
    (json_load : string → result json) (json_dump : json → string)
    (open_w : gmap string fs_entry → string → result unit)
    (fs : gmap string fs_entry) (path : string) :
  (fs !! path = None →
   read_whitelist_folders json_load fs path = Raise FileNotFoundError)
  ∧ (∀ text, fs !! path = Some (File text) →
       json_load text = Raise JSONDecodeError →
       read_whitelist_folders json_load fs path = Raise JSONDecodeError)
  ∧ (∀ text d, fs !! path = Some (File text) → json_load text = Ok (JObj d) →
       dict_get "folders" d = None →
       read_whitelist_folders json_load fs path = Raise KeyError)
  ∧ (∀ text d folders, fs !! path = Some (File text) →
       json_load text = Ok (JObj d) → dict_get "folders" d = Some folders →
       read_whitelist_folders json_load fs path = Ok folders)
  ∧ (∀ a collection e,
       whitelist_folders a = Some path → path ≠ "" →
       read_postman_collection json_load fs (input_file a) = Ok collection →
       read_whitelist_folders json_load fs path = Raise e →
       main json_load json_dump open_w fs a = exit_code e)
  ∧ (exit_code FileNotFoundError = 2 ∧ exit_code JSONDecodeError = 3
     ∧ exit_code KeyError = 3)%Z
  ∧ (∀ a fs', main_body json_load json_dump open_w fs a = Ok fs' →
       main json_load json_dump open_w fs a = 0%Z)
  ∧ (∀ a e, main_body json_load json_dump open_w fs a = Raise e →
       e ≠ FileNotFoundError → e ≠ JSONDecodeError → e ≠ KeyError →
       main json_load json_dump open_w fs a = 1%Z).
Proof.
  unfold read_whitelist_folders, open_r. split_and!; try done.
  - by intros ->.
  - intros text -> Hload. cbn. by rewrite Hload.
  - intros text d -> Hload Hget. cbn. rewrite Hload. cbn.
    unfold dict_mem. by rewrite Hget.
  - intros text d folders -> Hload Hget. cbn. rewrite Hload. cbn.
    unfold dict_mem. by rewrite Hget.
  - intros a collection e Hw Hpath Hcoll Hread.
    unfold main, main_body. rewrite Hcoll, Hw. cbn [mbind result_bind].
    apply String.eqb_neq in Hpath. rewrite Hpath. cbn [negb].
    unfold read_whitelist_folders, open_r. by rewrite Hread.
  - intros a fs' Hbody. unfold main. by rewrite Hbody.
  - intros a e Hbody H1 H2 H3. unfold main. rewrite Hbody. by destruct e.
Qed.

Lemma read_whitelist_folders_outcomes_witness :
  let main' := main sample_json_load (λ _, "") (λ _ _, Ok ()) sample_fs in
  (main' (sample_args (Some "missing.json")) = 2
   ∧ main' (sample_args (Some "bad.json")) = 3
   ∧ main' (sample_args (Some "nokey.json")) = 3
   ∧ main' (sample_args (Some "w.json")) = 0)%Z
  ∧ read_whitelist_folders sample_json_load sample_fs "w.json"
    = Ok (JArr [JStr "X"]).
Proof.
  pose (dump := λ _ : json, "").
  pose (open_w := λ (_ : gmap string fs_entry) (_ : string), Ok ()).
  destruct (read_whitelist_folders_outcomes sample_json_load dump open_w
              sample_fs "missing.json") as (Hmiss & _ & _ & _ & Hm1 & _).
  destruct (read_whitelist_folders_outcomes sample_json_load dump open_w
              sample_fs "bad.json") as (_ & Hbad & _ & _ & Hm2 & _).
  destruct (read_whitelist_folders_outcomes sample_json_load dump open_w
              sample_fs "nokey.json") as (_ & _ & Hkey & _ & Hm3 & _).
  destruct (read_whitelist_folders_outcomes sample_json_load dump open_w
              sample_fs "w.json") as (_ & _ & _ & Hok & _ & _ & H0 & _).
  cbv zeta. split_and!.
  - apply (Hm1 (sample_args (Some "missing.json")) two_folders
             FileNotFoundError);
      [reflexivity|discriminate|reflexivity|].
    apply Hmiss. reflexivity.
  - apply (Hm2 (sample_args (Some "bad.json")) two_folders JSONDecodeError);
      [reflexivity|discriminate|reflexivity|].
    apply (Hbad "not json"); reflexivity.
  - apply (Hm3 (sample_args (Some "nokey.json")) two_folders KeyError);
      [reflexivity|discriminate|reflexivity|].
    apply (Hkey "{}" []); reflexivity.
  - eapply (H0 (sample_args (Some "w.json"))). reflexivity.
  - apply (Hok "W" [("folders", JArr [JStr "X"])]); reflexivity.
Defined.

Lemma heap_read_sound fuel (h : store) v t :
  Heap.read fuel h v = Some t → Heap.repr h v t.
Proof.
  unfold Heap.repr. revert v t.
  induction fuel as [|fuel IH]; intros v t;
    (destruct v as [| | | | |l]; cbn [Heap.read]; try (by intros [= <-])).
  destruct (h !! l) as [[kvs|xs]|] eqn:Hl; [| |done].
  - destruct (mapM _ kvs) as [d|] eqn:Hm; [|done]. intros [= <-].
    apply repr_on_obj. exists l, kvs. split_and!; try done.
    apply mapM_Some in Hm. unfold dict_rel.
    eapply Forall2_impl; [exact Hm|].
    intros [k v] [k' x] Hk. cbn in *.
    destruct (Heap.read fuel h v) as [x'|] eqn:E; [|done].
    injection Hk as <- <-. split; [done|]. by apply IH.
  - destruct (mapM _ xs) as [ts|] eqn:Hm; [|done]. intros [= <-].
    apply repr_on_arr. exists l, xs. split_and!; try done.
    apply mapM_Some in Hm. eapply Forall2_impl; [exact Hm|]. apply IH.
Qed.

(** C8.  On the object store: a run of [remove_descriptions] or of
    [filter_by_endpoint_type] that returns leaves every object of the initial
    store as it was, and on an argument that stands for a tree each returns,
    its result standing for the result on trees through objects that did not
    exist before, while the argument still stands for the same tree; a run of
    [filter_by_whitelist_folders] that changes the store returns the
    reference it was given, has replaced the dict object behind it by the
    same dict with a new list under [item] (the other keys, their order and
    their values unchanged), and has left every other object as it was; on a
    collection dict with an [item] list of dicts, the keys of every dict
    distinct, it does so, the new list holding the elements whose name is in
    the whitelist. *)
Theorem filters_frame :
  (∀ fuel v (h : store) v' (h' : store),
     Heap.remove_descriptions fuel v h = Some (v', h') →
     ∀ l o, h !! l = Some o → h' !! l = Some o)
  ∧ (∀ fuel e v (h : store) v' (h' : store),
       Heap.filter_by_endpoint_type fuel v e h = Some (v', h') →
       ∀ l o, h !! l = Some o → h' !! l = Some o)
  ∧ (∀ t e (h : store) v fuel,
       Heap.repr h v t → depth t < fuel →
       (∃ v' (h' : store),
          Heap.remove_descriptions fuel v h = Some (v', h') ∧
          Heap.repr_on (λ l, h !! l = None) h' v' (remove_descriptions t) ∧
          Heap.repr h' v t)
       ∧ (∃ v' (h' : store),
            Heap.filter_by_endpoint_type fuel v e h = Some (v', h') ∧
            Heap.repr_on (λ l, h !! l = None) h' v'
              (filter_by_endpoint_type t e) ∧
            Heap.repr h' v t))
  ∧ (∀ fuel data w (h : store) r (h' : store),
       Heap.filter_by_whitelist_folders fuel data w h = Some (r, h') →
       h' = h ∨
       ∃ l kvs kept,
         data = Heap.VRef l ∧ r = Ok data ∧
         h !! l = Some (Heap.ODict kvs) ∧ dict_mem "item" kvs = true ∧
         h !! fresh (dom h) = None ∧
         h' !! fresh (dom h) = Some (Heap.OList kept) ∧
         h' !! l = Some (Heap.ODict
                           (dict_set "item" (Heap.VRef (fresh (dom h))) kvs)) ∧
         (dict_set "item" (Heap.VRef (fresh (dom h))) kvs).*1 = kvs.*1 ∧
         (∀ k, k ≠ "item" →
               dict_get k (dict_set "item" (Heap.VRef (fresh (dom h))) kvs)
               = dict_get k kvs) ∧
         (∀ l' o, l' ≠ l → h !! l' = Some o → h' !! l' = Some o))
  ∧ (∀ d items W (h : store) data w fuel,
       Heap.repr h data (JObj d) → wf (JObj d) = true →
       dict_get "item" d = Some (JArr items) →
       forallb is_obj items = true → Heap.repr h w (JArr W) →
       depth (JObj d) ≤ fuel → depth (JArr W) ≤ fuel →
       ∃ l kvs kept (h' : store),
         data = Heap.VRef l ∧ h !! l = Some (Heap.ODict kvs) ∧
         Heap.filter_by_whitelist_folders fuel data w h = Some (Ok data, h') ∧
         h' !! l = Some (Heap.ODict
                           (dict_set "item" (Heap.VRef (fresh (dom h))) kvs)) ∧
         h' !! fresh (dom h) = Some (Heap.OList kept) ∧
         Forall2 (Heap.repr h) kept (List.filter (whitelisted W) items)).
Proof.
  split_and!.
  - intros fuel v h v' h' Hrun l o Hl.
    eapply lookup_weaken; [exact Hl|]. by eapply heap_remove_descriptions_frame.
  - intros fuel e v h v' h' Hrun l o Hl.
    eapply lookup_weaken; [exact Hl|].
    by eapply heap_filter_by_endpoint_type_frame.
  - intros t e h v fuel Hr Hd. split.
    + destruct (heap_remove_descriptions_refines fuel t h v Hd Hr)
        as (v' & h' & Hrun & Hsub & Hv').
      exists v', h'. split_and!; [done..|by eapply repr_subseteq].
    + destruct (heap_filter_by_endpoint_type_refines fuel t e h v Hd Hr)
        as (v' & h' & Hrun & Hsub & Hv').
      exists v', h'. split_and!; [done..|by eapply repr_subseteq].
  - intros fuel data w h r h' Hrun.
    destruct (heap_filter_by_whitelist_folders_frame _ _ _ _ _ _ Hrun)
      as [->|(l & kvs & kept & -> & Hl & Hmem & -> & ->)]; [by left|right].
    pose proof (fresh_lookup_None h) as Hf.
    assert (fresh (dom h) ≠ l) as Hne by (intros Heq; congruence).
    exists l, kvs, kept. split_and!; try done.
    + by rewrite lookup_insert_ne, lookup_insert_eq.
    + apply lookup_insert_eq.
    + by rewrite dict_set_keys, Hmem.
    + intros k Hk. rewrite dict_get_set.
      destruct (String.eqb_spec "item" k); [by subst|done].
    + intros l' o Hl' Hlo. rewrite lookup_insert_ne by done.
      rewrite lookup_insert_ne; [done|]. intros <-. congruence.
  - intros d items W h data w fuel Hr Hwf Hitem Hobj Hw Hd HdW.
    destruct (heap_filter_by_whitelist_folders_refines
                fuel d items W h data w Hr Hwf Hitem Hobj Hw Hd HdW)
      as (l & kvs & kept & -> & Hl & Hrun & Hkept).
    pose proof (fresh_lookup_None h) as Hf.
    assert (fresh (dom h) ≠ l) as Hne by (intros Heq; congruence).
    eexists l, kvs, kept, _. split_and!; [done|done|exact Hrun| | |done].
    + apply lookup_insert_eq.
    + by rewrite lookup_insert_ne, lookup_insert_eq.
Qed.

Lemma filters_frame_witness :
  (∃ v' (h' : store),
     Heap.remove_descriptions 7 (Heap.VRef 1%positive) sample_store
       = Some (v', h') ∧
     Heap.repr_on (λ l, sample_store !! l = None) h' v'
       (remove_descriptions two_folders) ∧
     Heap.repr h' (Heap.VRef 1%positive) two_folders)
  ∧ (∃ l kvs kept (h' : store),
       Heap.VRef 1%positive = Heap.VRef l ∧
       sample_store !! l = Some (Heap.ODict kvs) ∧
       Heap.filter_by_whitelist_folders 7 (Heap.VRef 1%positive)
         (Heap.VRef 9%positive) sample_store
         = Some (Ok (Heap.VRef 1%positive), h') ∧
       h' !! l = Some (Heap.ODict
                         (dict_set "item"
                            (Heap.VRef (fresh (dom sample_store))) kvs)) ∧
       h' !! fresh (dom sample_store) = Some (Heap.OList kept) ∧
       Forall2 (Heap.repr sample_store) kept
         (List.filter (whitelisted [JStr "X"])
            [folder "X" [request "A" "GET"]; folder "Y" []])).
Proof.
  destruct filters_frame as (_ & _ & Hrun & _ & Hwl). split.
  - apply (Hrun two_folders "GET" sample_store (Heap.VRef 1%positive) 7).
    + apply (heap_read_sound 7). reflexivity.
    + vm_compute. lia.
  - apply (Hwl [("info", JObj [("name", JStr "c")]);
                ("item", JArr [folder "X" [request "A" "GET"]; folder "Y" []])]
               [folder "X" [request "A" "GET"]; folder "Y" []] [JStr "X"]
               sample_store (Heap.VRef 1%positive) (Heap.VRef 9%positive) 7).
    + apply (heap_read_sound 7). reflexivity.
    + reflexivity.
    + reflexivity.
    + reflexivity.
    + apply (heap_read_sound 7). reflexivity.
    + vm_compute. lia.
    + vm_compute. lia.
Defined.

(** * Further properties of the filters *)

Lemma omap_fixed {A} (f : A → option A) (l : list A) :
  Forall (λ x, f x = Some x) l → omap f l = l.
Proof.
  induction 1 as [|x l Hx _ IH]; [done|]. cbn. by rewrite Hx, IH.
Qed.

Lemma filter_by_endpoint_type_wf t e : wf (filter_by_endpoint_type t e) = true.
Proof.
  induction t as [| | | | |xs IH|kvs IH] using json_ind; try done.
  - rewrite filter_by_endpoint_type_arr. destruct (truthy _); [|done].
    apply wf_arr, Forall_forall.
    intros z (x & Hin & -> & _)%filtered_list_elem.
    rewrite Forall_forall in IH. by apply IH.
  - destruct (filter_by_endpoint_type_obj_cases kvs e) as [->| ->]; [done|].
    apply wf_obj. split; [by apply dict_build_keys_distinct|].
    apply dict_build_Forall; [constructor|].
    intros k v v' Hin [-> _]%fe_entry_Some.
    rewrite Forall_forall in IH. by apply (IH (k, v)).
Qed.

Lemma is_str_eq e m : is_str e m = true → m = JStr e.
Proof. destruct m; try done. by intros ->%String.eqb_eq. Qed.

(** The test at the end of the dict case did not fire when a dict came
    back. *)
Lemma filter_by_endpoint_type_obj_item_truthy kvs e r :
  filter_by_endpoint_type (JObj kvs) e = JObj r →
  dict_mem "item" kvs = true →
  truthy (default (JArr []) (dict_get "item" r)) = true.
Proof.
  rewrite filter_by_endpoint_type_obj.
  destruct (match request_method kvs with Some _ => _ | None => _ end); [done|].
  cbn zeta. intros H Hmem. rewrite Hmem in H. cbn [andb] in H.
  destruct (truthy _) eqn:Ht; [|done]. cbn in H. injection H as <-. done.
Qed.

Lemma filter_by_endpoint_type_fixed_again t e :
  wf t = true →
  filter_by_endpoint_type (filter_by_endpoint_type t e) e
  = filter_by_endpoint_type t e.
Proof.
  induction t as [| | | | |xs IH|kvs IH] using json_ind; try done.
  - intros Hwf%wf_arr. rewrite filter_by_endpoint_type_arr.
    destruct (filtered_list e xs) as [|y ys] eqn:E; [done|].
    cbn [truthy]. rewrite <- E. rewrite filter_by_endpoint_type_arr.
    assert (filtered_list e (filtered_list e xs) = filtered_list e xs) as ->.
    { apply omap_fixed, Forall_forall.
      intros z (x & Hin & -> & Hne)%filtered_list_elem.
      rewrite Forall_forall in IH, Hwf. rewrite IH by auto.
      by apply present_Some. }
    by rewrite E.
  - intros Hwf. pose proof Hwf as [Hd Hwfv]%wf_obj.
    destruct (filter_by_endpoint_type (JObj kvs) e) as [| | | | |?|r] eqn:E;
      try done; [by apply filter_by_endpoint_type_inv_obj_absurd in E|].
    pose proof (filter_by_endpoint_type_requests_match (JObj kvs) e Hwf) as Hrm.
    pose proof (filter_by_endpoint_type_wf (JObj kvs) e) as Hwfr.
    rewrite E in Hrm, Hwfr. apply wf_obj in Hwfr as [Hdr _].
    destruct (filter_by_endpoint_type_obj_result _ _ _ Hd E) as (Hr & Hget & _).
    cbn [requests_match] in Hrm. apply andb_true_iff in Hrm as [Hrm _].
    rewrite filter_by_endpoint_type_obj.
    assert (match request_method r with
            | Some method => negb (py_eq method (JStr e))
            | None => false
            end = false) as ->.
    { destruct (request_method r) as [m|]; [|done].
      apply is_str_eq in Hrm as ->. cbn. by rewrite String.eqb_refl. }
    cbn zeta.
    assert (dict_build (fe_entry e) r [] = r) as ->.
    { rewrite dict_build_nil by done. apply omap_fixed, Forall_forall.
      intros [k v'] Hin. cbn [fst snd].
      rewrite Hr in Hin.
      apply list_elem_of_omap in Hin as ([k0 v0] & Hin0 & Hf). cbn in Hf.
      destruct (fe_entry e k0 v0) as [v1|] eqn:Hfe; [|done].
      injection Hf as <- <-. apply fe_entry_Some in Hfe as [-> Hne].
      rewrite Forall_forall in IH, Hwfv. unfold fe_entry.
      pose proof (IH (k0, v0) Hin0 (Hwfv (k0, v0) Hin0)) as IHv.
      cbn [snd] in IHv. rewrite IHv.
      assert (present (filter_by_endpoint_type v0 e)
              = Some (filter_by_endpoint_type v0 e)) as ->
        by by apply present_Some.
      done. }
    destruct (dict_mem "item" r) eqn:Hmem; [|done].
    rewrite (filter_by_endpoint_type_obj_item_truthy kvs e r E); [done|].
    apply dict_mem_true in Hmem as [v Hv]. rewrite Hget in Hv.
    apply dict_mem_true. destruct (dict_get "item" kvs); [by eexists|done].
Qed.

Lemma filter_by_endpoint_type_no_null_inside t e :
  no_null_inside (filter_by_endpoint_type t e) = true.
Proof.
  induction t as [| | | | |xs IH|kvs IH] using json_ind; try done.
  - rewrite filter_by_endpoint_type_arr. destruct (truthy _); [|done].
    cbn [no_null_inside]. apply forallb_Forall, Forall_forall.
    intros z (x & Hin & -> & Hne)%filtered_list_elem.
    rewrite Forall_forall in IH. rewrite (IH x Hin), andb_true_r.
    by destruct (filter_by_endpoint_type x e).
  - destruct (filter_by_endpoint_type_obj_cases kvs e) as [->| ->]; [done|].
    cbn [no_null_inside]. apply forallb_Forall.
    apply dict_build_Forall; [constructor|].
    intros k v v' Hin [-> Hne]%fe_entry_Some. cbn [snd].
    rewrite Forall_forall in IH. pose proof (IH (k, v) Hin) as IHv.
    cbn [snd] in IHv. rewrite IHv, andb_true_r.
    by destruct (filter_by_endpoint_type v e).
Qed.

Lemma omap_keys_sublist {V W} (f : string → V → option W) (kvs : list (string * V)) :
  (omap (λ kv, pair kv.1 <$> f kv.1 kv.2) kvs).*1 `sublist_of` kvs.*1.
Proof.
  induction kvs as [|[k v] kvs IH]; [done|].
  cbn. destruct (f k v); cbn; [by apply sublist_skip|by apply sublist_cons].
Qed.

Lemma remove_descriptions_is_None t : is_None (remove_descriptions t) = is_None t.
Proof. by destruct t. Qed.

Lemma remove_descriptions_present t :
  present (remove_descriptions t) = remove_descriptions <$> present t.
Proof. by destruct t. Qed.

Lemma remove_descriptions_obj_get kvs k :
  keys_distinct kvs = true →
  dict_get k (dict_build rd_entry kvs []) = dict_get k kvs ≫= rd_entry k.
Proof.
  intros Hd. rewrite dict_build_nil by done.
  apply dict_get_omap. by apply keys_distinct_NoDup.
Qed.

Lemma remove_descriptions_request_method kvs :
  wf (JObj kvs) = true →
  request_method (dict_build rd_entry kvs [])
  = remove_descriptions <$> request_method kvs.
Proof.
  intros [Hd Hwf]%wf_obj. unfold request_method.
  rewrite remove_descriptions_obj_get by done.
  destruct (dict_get "request" kvs) as [v|] eqn:Hv; [|done]. cbn.
  rewrite Forall_forall in Hwf.
  pose proof (Hwf _ (dict_get_elem _ _ _ Hv)) as Hwfv. cbn [snd] in Hwfv.
  destruct v as [| | | | |xs|r]; try done.
  rewrite remove_descriptions_obj.
  apply wf_obj in Hwfv as [Hdr _].
  rewrite remove_descriptions_obj_get by done.
  by destruct (dict_get "method" r).
Qed.

Lemma remove_descriptions_py_eq_str m e :
  py_eq (remove_descriptions m) (JStr e) = py_eq m (JStr e).
Proof. by destruct m. Qed.

Lemma remove_descriptions_requests_match t e :
  wf t = true → requests_match e t = true →
  requests_match e (remove_descriptions t) = true.
Proof.
  induction t as [| | | | |xs IH|kvs IH] using json_ind; try done.
  - intros Hwf%wf_arr Hrm. rewrite remove_descriptions_arr.
    cbn [requests_match] in *. apply forallb_Forall in Hrm.
    apply forallb_Forall, Forall_forall.
    intros y (x & <- & Hin%list_elem_of_In)%list_elem_of_In%in_map_iff.
    rewrite Forall_forall in IH, Hwf, Hrm. auto.
  - intros Hwf Hrm. pose proof Hwf as [Hd Hwfv]%wf_obj.
    rewrite remove_descriptions_obj. cbn [requests_match] in *.
    apply andb_true_iff in Hrm as [Hm Hvals].
    apply andb_true_iff. split.
    + rewrite remove_descriptions_request_method by done.
      destruct (request_method kvs) as [m|]; [|done]. cbn.
      apply is_str_eq in Hm as ->. cbn. apply String.eqb_refl.
    + apply forallb_Forall. apply forallb_Forall in Hvals.
      apply dict_build_Forall; [constructor|].
      intros k v v' Hin. unfold rd_entry.
      destruct (String.eqb k "description"); [done|]. intros [= <-].
      rewrite Forall_forall in IH, Hwfv, Hvals.
      apply (IH (k, v)); [done|by apply (Hwfv (k, v))|by apply (Hvals (k, v))].
Qed.

Lemma remove_descriptions_no_empty_list t :
  no_empty_list t = true → no_empty_list (remove_descriptions t) = true.
Proof.
  induction t as [| | | | |xs IH|kvs IH] using json_ind; try done.
  - rewrite remove_descriptions_arr. cbn [no_empty_list].
    intros [Hlen Hxs]%andb_true_iff. rewrite length_map, Hlen. cbn.
    apply forallb_Forall in Hxs. apply forallb_Forall, Forall_forall.
    intros y (x & <- & Hin%list_elem_of_In)%list_elem_of_In%in_map_iff.
    rewrite Forall_forall in IH, Hxs. auto.
  - rewrite remove_descriptions_obj. cbn [no_empty_list].
    intros Hvals%forallb_Forall. apply forallb_Forall.
    apply dict_build_Forall; [constructor|].
    intros k v v' Hin. unfold rd_entry.
    destruct (String.eqb k "description"); [done|]. intros [= <-].
    rewrite Forall_forall in IH, Hvals.
    apply (IH (k, v)); [done|by apply (Hvals (k, v))].
Qed.

Lemma remove_descriptions_truthy t :
  is_obj t = false → truthy (remove_descriptions t) = truthy t.
Proof. destruct t as [| | | | |[|x xs]|]; done. Qed.

Lemma filter_by_endpoint_type_arr_not_obj v e :
  is_arr v = true → is_obj (filter_by_endpoint_type v e) = false.
Proof.
  destruct v; try done. intros _. rewrite filter_by_endpoint_type_arr.
  by destruct (truthy _).
Qed.

Lemma item_lists_obj kvs :
  item_lists (JObj kvs) = true ↔
  Forall (λ kv, (kv.1 = "item" → is_arr kv.2 = true) ∧ item_lists kv.2 = true) kvs.
Proof.
  cbn [item_lists]. rewrite forallb_Forall. apply Forall_proper; [|done].
  intros [k v]. cbn [fst snd].
  rewrite andb_true_iff, orb_true_iff, negb_true_iff.
  destruct (String.eqb_spec k "item") as [->|Hne]; split.
  - intros [[?|?] ?]; done.
  - intros [H ?]. split; [right; by apply H|done].
  - intros [_ ?]. done.
  - intros [_ ?]. split; [by left|done].
Qed.

Lemma omap_rd_fe_commute kvs e :
  Forall (λ kv, remove_descriptions (filter_by_endpoint_type kv.2 e)
                = filter_by_endpoint_type (remove_descriptions kv.2) e) kvs →
  omap (λ kv, pair kv.1 <$> rd_entry kv.1 kv.2)
    (omap (λ kv, pair kv.1 <$> fe_entry e kv.1 kv.2) kvs)
  = omap (λ kv, pair kv.1 <$> fe_entry e kv.1 kv.2)
      (omap (λ kv, pair kv.1 <$> rd_entry kv.1 kv.2) kvs).
Proof.
  induction 1 as [|[k v] kvs Hx _ IH]; [done|].
  cbn [fst snd] in Hx. unfold fe_entry, rd_entry in *.
  cbn [omap list_omap fst snd].
  destruct (String.eqb k "description") eqn:Hk.
  - destruct (present (filter_by_endpoint_type v e)); cbn; rewrite ?Hk; cbn;
      exact IH.
  - cbn. rewrite <- Hx, remove_descriptions_present.
    destruct (present (filter_by_endpoint_type v e)); cbn; rewrite ?Hk; cbn;
      by rewrite IH.
Qed.

(** The two recursive filters commute on a collection whose [item] keys
    hold lists. *)
Lemma remove_descriptions_filter_commute t e :
  wf t = true → item_lists t = true →
  remove_descriptions (filter_by_endpoint_type t e)
  = filter_by_endpoint_type (remove_descriptions t) e.
Proof.
  induction t as [| | | | |xs IH|kvs IH] using json_ind; try done.
  - intros Hwf%wf_arr Hil. cbn [item_lists] in Hil. apply forallb_Forall in Hil.
    rewrite remove_descriptions_arr, !filter_by_endpoint_type_arr.
    assert (filtered_list e (List.map remove_descriptions xs)
            = List.map remove_descriptions (filtered_list e xs)) as ->.
    { unfold filtered_list.
      induction xs as [|x xs IHxs]; [done|].
      apply Forall_cons in IH as [IHx IH]. apply Forall_cons in Hwf as [? ?].
      apply Forall_cons in Hil as [? ?].
      cbn [List.map omap list_omap].
      rewrite <- IHx, remove_descriptions_present by done.
      rewrite IHxs by done. by destruct (present _). }
    by destruct (filtered_list e xs).
  - intros Hwf Hil. pose proof Hwf as [Hd Hwfv]%wf_obj.
    apply item_lists_obj in Hil.
    pose proof (remove_descriptions_wf (JObj kvs)) as Hwf'.
    rewrite remove_descriptions_obj in Hwf' |- *.
    apply wf_obj in Hwf' as [Hd' _].
    rewrite !filter_by_endpoint_type_obj.
    rewrite remove_descriptions_request_method by done.
    assert (match remove_descriptions <$> request_method kvs with
            | Some method => negb (py_eq method (JStr e))
            | None => false
            end
            = match request_method kvs with
              | Some method => negb (py_eq method (JStr e))
              | None => false
              end) as ->.
    { destruct (request_method kvs); [|done]. cbn.
      by rewrite remove_descriptions_py_eq_str. }
    destruct (match request_method kvs with Some _ => _ | None => _ end);
      [done|].
    cbn zeta.
    assert (dict_mem "item" (dict_build rd_entry kvs []) = dict_mem "item" kvs)
      as ->.
    { unfold dict_mem. rewrite remove_descriptions_obj_get by done.
      by destruct (dict_get "item" kvs). }
    rewrite (dict_build_nil (fe_entry e) kvs) by done.
    rewrite (dict_build_nil (fe_entry e) (dict_build rd_entry kvs [])) by done.
    rewrite !dict_get_omap by by apply keys_distinct_NoDup.
    rewrite remove_descriptions_obj_get by done.
    assert (truthy (default (JArr [])
                      ((dict_get "item" kvs ≫= rd_entry "item")
                         ≫= fe_entry e "item"))
            = truthy (default (JArr [])
                        (dict_get "item" kvs ≫= fe_entry e "item"))) as ->.
    { destruct (dict_get "item" kvs) as [v|] eqn:Hv; [|done]. cbn.
      rewrite Forall_forall in IH, Hwfv, Hil.
      pose proof (dict_get_elem _ _ _ Hv) as Hin.
      destruct (Hil _ Hin) as [Harr Hilv]. cbn [fst snd] in *.
      unfold fe_entry.
      pose proof (IH _ Hin (Hwfv _ Hin) Hilv) as IHv. cbn [snd] in IHv.
      rewrite <- IHv, remove_descriptions_present.
      pose proof (filter_by_endpoint_type_arr_not_obj v e (Harr eq_refl)) as Hno.
      unfold present.
      destruct (is_None (filter_by_endpoint_type v e)); [done|]. cbn.
      by apply remove_descriptions_truthy. }
    assert (dict_build rd_entry
              (omap (λ kv, pair kv.1 <$> fe_entry e kv.1 kv.2) kvs) []
            = omap (λ kv, pair kv.1 <$> fe_entry e kv.1 kv.2)
                (dict_build rd_entry kvs [])) as Hboth.
    { rewrite dict_build_nil.
      2:{ apply keys_distinct_NoDup.
          apply (sublist_NoDup _ kvs.*1); [|apply omap_keys_sublist].
          by apply keys_distinct_NoDup. }
      rewrite (dict_build_nil rd_entry kvs) by done.
      apply omap_rd_fe_commute.
      rewrite Forall_forall in IH, Hwfv, Hil |- *.
      intros kv Hin. apply IH; [done|by apply Hwfv|by apply Hil]. }
    destruct (dict_mem "item" kvs && _); [done|].
    by rewrite remove_descriptions_obj, Hboth.
Qed.

(** * Further properties of the whitelist filter *)

Lemma existsb_same_elements {A} (f : A → bool) (l l' : list A) :
  (∀ x, x ∈ l ↔ x ∈ l') → existsb f l = existsb f l'.
Proof.
  intros Hl. apply Bool.eq_iff_eq_true. rewrite !existsb_exists.
  split; intros (x & Hin%list_elem_of_In & Hx); exists x;
    (split; [apply list_elem_of_In, Hl, Hin|done]).
Qed.

Lemma comprehension_if_ext (c1 c2 : json → result bool) items :
  (∀ x, c1 x = c2 x) → comprehension_if c1 items = comprehension_if c2 items.
Proof.
  intros Hc. induction items as [|x items IH]; [done|].
  cbn. by rewrite Hc, IH.
Qed.

Lemma dict_set_set {V} k (v v' : V) (d : list (string * V)) :
  dict_set k v (dict_set k v' d) = dict_set k v d.
Proof.
  induction d as [|[k0 v0] d IH]; cbn.
  - by rewrite String.eqb_refl.
  - destruct (String.eqb k0 k) eqn:E; cbn; rewrite E; [done|by rewrite IH].
Qed.

Lemma filter_filter_andb {A} (f g : A → bool) (l : list A) :
  List.filter g (List.filter f l) = List.filter (λ x, f x && g x) l.
Proof.
  induction l as [|x l IH]; [done|].
  cbn. destruct (f x); cbn; [destruct (g x)|]; by rewrite IH.
Qed.

Lemma forallb_filter {A} (p f : A → bool) (l : list A) :
  forallb p l = true → forallb p (List.filter f l) = true.
Proof.
  rewrite !forallb_forall. intros H x [Hin _]%filter_In. by apply H.
Qed.

(** * Further properties of the boundary *)


(** * Further properties, stated *)

(** X1.  [filter_by_endpoint_type] is idempotent: filtering a filtered
    collection again for the same method changes nothing. *)
Theorem filter_by_endpoint_type_idempotent (t : json) (M : string) :
  wf t = true →
  filter_by_endpoint_type (filter_by_endpoint_type t M) M
  = filter_by_endpoint_type t M.
Proof. apply filter_by_endpoint_type_fixed_again. Qed.

Lemma filter_by_endpoint_type_idempotent_witness :
  filter_by_endpoint_type (filter_by_endpoint_type two_requests "GET") "GET"
  = JObj [("item", JArr [request "A" "GET"])].
Proof.
  rewrite (filter_by_endpoint_type_idempotent two_requests "GET"); reflexivity.
Defined.

(** X2.  A JSON [null] never survives [filter_by_endpoint_type] below the
    root: no dict value and no list element of a result is [None], and a
    key bound to [null] is missing from the result dict. *)
Theorem filter_by_endpoint_type_drops_null
    (t : json) (M : string) (kvs : dict) (k : string) (r : dict) :
  no_null_inside (filter_by_endpoint_type t M) = true
  ∧ (keys_distinct kvs = true → dict_get k kvs = Some JNull →
     filter_by_endpoint_type (JObj kvs) M = JObj r → dict_get k r = None).
Proof.
  split; [apply filter_by_endpoint_type_no_null_inside|].
  intros Hd Hk E.
  destruct (filter_by_endpoint_type_obj_result _ _ _ Hd E) as (_ & Hget & _).
  by rewrite Hget, Hk.
Qed.

Lemma filter_by_endpoint_type_drops_null_witness :
  dict_get "auth" [("name", JStr "A")] = None
  ∧ filter_by_endpoint_type (JObj [("name", JStr "A"); ("auth", JNull)]) "GET"
    = JObj [("name", JStr "A")].
Proof.
  split; [|reflexivity].
  apply (filter_by_endpoint_type_drops_null JNull "GET"
           [("name", JStr "A"); ("auth", JNull)] "auth" [("name", JStr "A")]);
    reflexivity.
Defined.

(** X3.  A result dict of [filter_by_endpoint_type] has a subsequence of the
    argument's keys, in the same order, and under each key the filtered
    value of the argument, the keys whose value filters to [None] left
    out. *)
Theorem filter_by_endpoint_type_keys (kvs : dict) (M : string) (r : dict) :
  keys_distinct kvs = true → filter_by_endpoint_type (JObj kvs) M = JObj r →
  r.*1 `sublist_of` kvs.*1
  ∧ ∀ k, dict_get k r
         = dict_get k kvs ≫= λ v, present (filter_by_endpoint_type v M).
Proof.
  intros Hd E.
  destruct (filter_by_endpoint_type_obj_result _ _ _ Hd E) as (-> & Hget & _).
  split; [apply omap_keys_sublist|]. intros k.
  apply dict_get_omap. by apply keys_distinct_NoDup.
Qed.

Lemma filter_by_endpoint_type_keys_witness :
  ["item"] `sublist_of` ["info"; "item"; "event"]
  ∧ dict_get "info" [("item", JArr [request "A" "GET"])] = None.
Proof.
  pose proof (filter_by_endpoint_type_keys
                [("info", JNull); ("item", JArr [request "A" "GET"]);
                 ("event", JArr [])] "GET"
                [("item", JArr [request "A" "GET"])] eq_refl eq_refl) as [H1 H2].
  split; [exact H1|]. rewrite (H2 "info"). reflexivity.
Defined.

(** X4.  After the endpoint filter and then the description remover, as
    [main] chains them, the output at once has no ["description"] key, has
    only requests of the wanted method, and has no empty list. *)
Theorem filter_then_remove_descriptions (t : json) (M : string) :
  wf t = true →
  let out := remove_descriptions (filter_by_endpoint_type t M) in
  no_description out = true ∧ requests_match M out = true
  ∧ no_empty_list out = true ∧ wf out = true.
Proof.
  intros Hwf out. subst out. split_and!.
  - apply remove_descriptions_no_description.
  - apply remove_descriptions_requests_match.
    + apply filter_by_endpoint_type_wf.
    + by apply filter_by_endpoint_type_requests_match.
  - apply remove_descriptions_no_empty_list,
      filter_by_endpoint_type_no_empty_list.
  - apply remove_descriptions_wf.
Qed.

Lemma filter_then_remove_descriptions_witness :
  no_description (remove_descriptions (filter_by_endpoint_type two_folders "GET"))
  = true.
Proof.
  apply (filter_then_remove_descriptions two_folders "GET"). reflexivity.
Defined.

(** X5.  On a collection whose [item] keys all hold lists, the endpoint
    filter and the description remover commute: the order in which [main]
    applies them does not matter. *)
Theorem remove_descriptions_filter_by_endpoint_type_commute
    (t : json) (M : string) :
  wf t = true → item_lists t = true →
  remove_descriptions (filter_by_endpoint_type t M)
  = filter_by_endpoint_type (remove_descriptions t) M.
Proof. apply remove_descriptions_filter_commute. Qed.

Lemma remove_descriptions_filter_by_endpoint_type_commute_witness :
  remove_descriptions
    (filter_by_endpoint_type
       (JObj [("description", JStr "d");
              ("item", JArr [request "A" "GET"; request "B" "POST"])]) "GET")
  = filter_by_endpoint_type
      (remove_descriptions
         (JObj [("description", JStr "d");
                ("item", JArr [request "A" "GET"; request "B" "POST"])])) "GET".
Proof.
  apply (remove_descriptions_filter_by_endpoint_type_commute
           (JObj [("description", JStr "d");
                  ("item", JArr [request "A" "GET"; request "B" "POST"])])
           "GET"); reflexivity.
Defined.

(** X6.  The result of [filter_by_whitelist_folders], an exception included,
    depends only on which values the whitelist holds, not on their order or
    on repetitions. *)
Theorem filter_by_whitelist_folders_membership (data : json) (W W' : list json) :
  (∀ x, x ∈ W ↔ x ∈ W') →
  filter_by_whitelist_folders data (JArr W)
  = filter_by_whitelist_folders data (JArr W').
Proof.
  intros HW. unfold filter_by_whitelist_folders.
  destruct data as [| | | | | |d]; try done.
  destruct (dict_get "item" d) as [items|]; [|done].
  destruct (py_iter items) as [elements|]; [|done]. cbn.
  rewrite (comprehension_if_ext _
             (λ item, name ← py_get item "name"; py_in name (JArr W'))); [done|].
  intros x. destruct (py_get x "name") as [name|]; [|done]. cbn.
  by rewrite (existsb_same_elements _ W W').
Qed.

Lemma filter_by_whitelist_folders_membership_witness :
  filter_by_whitelist_folders two_folders (JArr [JStr "X"; JStr "Y"])
  = filter_by_whitelist_folders two_folders (JArr [JStr "Y"; JStr "X"; JStr "X"]).
Proof.
  apply (filter_by_whitelist_folders_membership two_folders
           [JStr "X"; JStr "Y"] [JStr "Y"; JStr "X"; JStr "X"]).
  intros x. rewrite !elem_of_cons, !elem_of_nil. tauto.
Defined.

(** X7.  Whitelisting by [W1] and then by [W2] keeps exactly the top-level
    items that both whitelists accept; whitelisting twice by the same list
    is whitelisting once. *)
Theorem filter_by_whitelist_folders_twice (d : dict) (items W1 W2 : list json) :
  dict_get "item" d = Some (JArr items) → forallb is_obj items = true →
  (r ← filter_by_whitelist_folders (JObj d) (JArr W1);
   filter_by_whitelist_folders r (JArr W2))
  = Ok (JObj (dict_set "item"
                (JArr (List.filter
                         (λ item, whitelisted W1 item && whitelisted W2 item)
                         items)) d))
  ∧ (r ← filter_by_whitelist_folders (JObj d) (JArr W1);
     filter_by_whitelist_folders r (JArr W1))
    = filter_by_whitelist_folders (JObj d) (JArr W1).
Proof.
  intros Hitem Hobj.
  assert (∀ W2',
    (r ← filter_by_whitelist_folders (JObj d) (JArr W1);
     filter_by_whitelist_folders r (JArr W2'))
    = Ok (JObj (dict_set "item"
                  (JArr (List.filter
                           (λ item, whitelisted W1 item && whitelisted W2' item)
                           items)) d))) as Htwice.
  { intros W2'. rewrite (filter_by_whitelist_folders_items d items W1) by done.
    cbn [mbind result_bind].
    rewrite (filter_by_whitelist_folders_items _
               (List.filter (whitelisted W1) items) W2').
    - by rewrite dict_set_set, filter_filter_andb.
    - by rewrite dict_get_set, String.eqb_refl.
    - by apply forallb_filter. }
  split; [apply Htwice|].
  rewrite Htwice, (filter_by_whitelist_folders_items d items W1) by done.
  do 4 f_equal. apply List.filter_ext. intros x. apply andb_diag.
Qed.

Lemma filter_by_whitelist_folders_twice_witness :
  (r ← filter_by_whitelist_folders two_folders (JArr [JStr "X"; JStr "Y"]);
   filter_by_whitelist_folders r (JArr [JStr "Y"]))
  = Ok (JObj [("info", JObj [("name", JStr "c")]);
              ("item", JArr [folder "Y" []])]).
Proof.
  apply (filter_by_whitelist_folders_twice
           [("info", JObj [("name", JStr "c")]);
            ("item", JArr [folder "X" [request "A" "GET"]; folder "Y" []])]
           [folder "X" [request "A" "GET"]; folder "Y" []]
           [JStr "X"; JStr "Y"] [JStr "Y"]); reflexivity.
Defined.

(** X8.  A whitelist that is a number, a boolean or [null] instead of a list
    makes [filter_by_whitelist_folders] raise [TypeError] as soon as the
    collection has a top-level item, and is accepted when the [item] list is
    empty. *)
Theorem filter_by_whitelist_folders_scalar_whitelist
    (d : dict) (items : list json) (w : json) :
  dict_get "item" d = Some (JArr items) → forallb is_obj items = true →
  is_scalar w = true → (∀ s, w ≠ JStr s) →
  filter_by_whitelist_folders (JObj d) w
  = match items with
    | [] => Ok (JObj (dict_set "item" (JArr []) d))
    | _ :: _ => Raise TypeError
    end.
Proof.
  intros Hitem Hobj Hw Hstr. unfold filter_by_whitelist_folders.
  rewrite Hitem. cbn. destruct items as [|item rest]; [done|].
  cbn in Hobj. apply andb_true_iff in Hobj as [Hitem_obj _].
  destruct item; try done. cbn.
  destruct w; try done. by destruct (Hstr s).
Qed.

Lemma filter_by_whitelist_folders_scalar_whitelist_witness :
  filter_by_whitelist_folders two_folders (JInt 5) = Raise TypeError.
Proof.
  apply (filter_by_whitelist_folders_scalar_whitelist
           [("info", JObj [("name", JStr "c")]);
            ("item", JArr [folder "X" [request "A" "GET"]; folder "Y" []])]
           [folder "X" [request "A" "GET"]; folder "Y" []] (JInt 5));
    [reflexivity|reflexivity|reflexivity|discriminate].
Defined.

(** X9.  [read_whitelist_folders] returns a value only when the file exists,
    parses to a dict and the dict has the key [folders]: the value under it.
    A document that is a list raises [KeyError], or [TypeError] when the
    list holds the string ["folders"]. *)
Theorem read_whitelist_folders_returns
    (json_load : string → result json) (fs : gmap string fs_entry)
    (path : string) (v : json) :
  (read_whitelist_folders json_load fs path = Ok v →
   ∃ text d, fs !! path = Some (File text) ∧ json_load text = Ok (JObj d)
             ∧ dict_get "folders" d = Some v)
  ∧ (∀ text xs, fs !! path = Some (File text) → json_load text = Ok (JArr xs) →
       read_whitelist_folders json_load fs path
       = if existsb (py_eq (JStr "folders")) xs then Raise TypeError
         else Raise KeyError).
Proof.
  unfold read_whitelist_folders, open_r. split.
  - destruct (fs !! path) as [[text|]|]; cbn; try done.
    destruct (json_load text) as [data|] eqn:Hload; cbn; [|done].
    destruct data as [| | | |s|xs|d]; cbn; try done.
    + by destruct (is_substring "folders" s).
    + by destruct (existsb _ xs).
    + unfold dict_mem. destruct (dict_get "folders" d) as [v'|] eqn:Hget;
        cbn; [|done].
      intros [= <-]. by exists text, d.
  - intros text xs -> Hload. cbn. rewrite Hload. cbn.
    by destruct (existsb _ xs).
Qed.

Lemma read_whitelist_folders_returns_witness :
  ∃ text d, sample_fs !! "w.json" = Some (File text)
            ∧ sample_json_load text = Ok (JObj d)
            ∧ dict_get "folders" d = Some (JArr [JStr "X"]).
Proof.
  apply (read_whitelist_folders_returns sample_json_load sample_fs "w.json"
           (JArr [JStr "X"])).
  reflexivity.
Defined.

(** X10.  Whatever the options, [main] returns 2 when the input file does not
    exist, 1 when the input path is a directory, and 3 when parsing the
    input file raises [JSONDecodeError]; the whitelist file is not looked at
    before. *)
Theorem main_input_errors
    (json_load : string → result json) (json_dump : json → string)
    (open_w : gmap string fs_entry → string → result unit)
    (fs : gmap string fs_entry) (a : args) :
  (fs !! input_file a = None →
   main json_load json_dump open_w fs a = 2%Z)
  ∧ (fs !! input_file a = Some Directory →
     main json_load json_dump open_w fs a = 1%Z)
  ∧ (∀ text, fs !! input_file a = Some (File text) →
       json_load text = Raise JSONDecodeError →
       main json_load json_dump open_w fs a = 3%Z).
Proof.
  unfold main, main_body, read_postman_collection, open_r. split_and!.
  - by intros ->.
  - by intros ->.
  - intros text -> Hload. cbn. by rewrite Hload.
Qed.

Lemma main_input_errors_witness :
  main sample_json_load (λ _, "") (λ _ _, Ok ()) sample_fs
    {| input_file := "absent.json"; output_file := "out.json";
       remove_descriptions_flag := true; only_endpoints_type := Some "GET";
       whitelist_folders := Some "bad.json" |} = 2%Z
  ∧ main sample_json_load (λ _, "") (λ _ _, Ok ()) sample_fs
      {| input_file := "bad.json"; output_file := "out.json";
         remove_descriptions_flag := false; only_endpoints_type := None;
         whitelist_folders := Some "absent.json" |} = 3%Z.
Proof.
  split.
  - apply (main_input_errors sample_json_load (λ _, "") (λ _ _, Ok ()) sample_fs
             {| input_file := "absent.json"; output_file := "out.json";
                remove_descriptions_flag := true;
                only_endpoints_type := Some "GET";
                whitelist_folders := Some "bad.json" |}).
    reflexivity.
  - destruct (main_input_errors sample_json_load (λ _, "") (λ _ _, Ok ())
                sample_fs
                {| input_file := "bad.json"; output_file := "out.json";
                   remove_descriptions_flag := false;
                   only_endpoints_type := None;
                   whitelist_folders := Some "absent.json" |})
      as (_ & _ & Hbad).
    apply (Hbad "not json"); reflexivity.
Defined.



(** X12.  When no request of the wanted method is in a collection made of
    folders and requests, [main] still succeeds: it writes the dump of
    [None] (JSON [null]) to the output file and returns 0. *)
Theorem main_no_match
    (json_load : string → result json) (json_dump : json → string)
    (open_w : gmap string fs_entry → string → result unit)
    (fs : gmap string fs_entry) (a : args) (collection : json) (M : string) :
  read_postman_collection json_load fs (input_file a) = Ok collection →
  whitelist_folders a = None → only_endpoints_type a = Some M → M ≠ "" →
  wf collection = true → item_tree collection = true →
  contains_request M collection = false →
  open_w fs (output_file a) = Ok () →
  main_body json_load json_dump open_w fs a
    = Ok (<[output_file a := File (json_dump JNull)]> fs)
  ∧ main json_load json_dump open_w fs a = 0%Z.
Proof.
  intros Hread Hw HM Hne Hwf Hit Hc Hopen.
  assert (main_body json_load json_dump open_w fs a
          = Ok (<[output_file a := File (json_dump JNull)]> fs)) as Hbody.
  { unfold main_body, write_postman_subset. rewrite Hread, Hw, HM.
    cbn [mbind result_bind]. apply String.eqb_neq in Hne. rewrite Hne.
    cbn [negb]. rewrite filter_by_endpoint_type_prunes by auto.
    rewrite Hopen. cbn. by destruct (remove_descriptions_flag a). }
  split; [done|]. unfold main. by rewrite Hbody.
Qed.

Lemma main_no_match_witness :
  main sample_json_load (λ _, "null") (λ _ _, Ok ()) sample_fs
    {| input_file := "in.json"; output_file := "out.json";
       remove_descriptions_flag := true; only_endpoints_type := Some "POST";
       whitelist_folders := None |} = 0%Z.
Proof.
  apply (main_no_match sample_json_load (λ _, "null") (λ _ _, Ok ()) sample_fs
           {| input_file := "in.json"; output_file := "out.json";
              remove_descriptions_flag := true;
              only_endpoints_type := Some "POST";
              whitelist_folders := None |} two_folders "POST");
    try reflexivity.
  discriminate.
Defined.

(** X13.  With a whitelist that reads well and a collection that is not a
    dict, [main] returns 1: the collection passes the whitelist filter
    unchanged and [collection.get('item')] raises [AttributeError]. *)
Theorem main_whitelist_on_non_dict
    (json_load : string → result json) (json_dump : json → string)
    (open_w : gmap string fs_entry → string → result unit)
    (fs : gmap string fs_entry) (a : args) (collection whitelist : json)
    (path : string) :
  read_postman_collection json_load fs (input_file a) = Ok collection →
  is_obj collection = false →
  whitelist_folders a = Some path → path ≠ "" →
  read_whitelist_folders json_load fs path = Ok whitelist →
  main_body json_load json_dump open_w fs a = Raise AttributeError
  ∧ main json_load json_dump open_w fs a = 1%Z.
Proof.
  intros Hread Hc Hw Hne Hwl.
  assert (main_body json_load json_dump open_w fs a = Raise AttributeError)
    as Hbody.
  { unfold main_body. rewrite Hread, Hw. cbn [mbind result_bind].
    apply String.eqb_neq in Hne. rewrite Hne. cbn [negb]. rewrite Hwl.
    cbn [mbind result_bind]. by destruct collection. }
  split; [done|]. unfold main. by rewrite Hbody.
Qed.

Lemma main_whitelist_on_non_dict_witness :
  main (λ text, if String.eqb text "W" then sample_json_load text
                else Ok (JArr []))
    (λ _, "") (λ _ _, Ok ()) sample_fs (sample_args (Some "w.json")) = 1%Z.
Proof.
  apply (main_whitelist_on_non_dict
           (λ text, if String.eqb text "W" then sample_json_load text
                    else Ok (JArr []))
           (λ _, "") (λ _ _, Ok ()) sample_fs (sample_args (Some "w.json"))
           (JArr []) (JArr [JStr "X"]) "w.json");
    try reflexivity.
  discriminate.
Defined.

(** * The description remover and the whitelist filter *)

Lemma omap_rd_entry_set k v d :
  k ≠ "description" → dict_mem k d = true →
  omap (λ kv, pair kv.1 <$> rd_entry kv.1 kv.2) (dict_set k v d)
  = dict_set k (remove_descriptions v)
      (omap (λ kv, pair kv.1 <$> rd_entry kv.1 kv.2) d).
Proof.
  intros Hk. induction d as [|[k0 v0] d IH]; [done|].
  rewrite dict_mem_cons. cbn [dict_set].
  destruct (String.eqb_spec k0 k) as [->|Hne]; cbn [orb].
  - intros _. cbn [omap list_omap fst snd].
    assert (∀ x, rd_entry k x = Some (remove_descriptions x)) as Hrd.
    { intros x. unfold rd_entry. apply String.eqb_neq in Hk. by rewrite Hk. }
    rewrite !Hrd. cbn [fmap option_fmap option_map dict_set].
    by rewrite String.eqb_refl.
  - intros Hmem. cbn [omap list_omap fst snd].
    destruct (rd_entry k0 v0) as [v1|]; cbn [fmap option_fmap option_map];
      [|by apply IH].
    cbn [dict_set]. apply String.eqb_neq in Hne. rewrite Hne. by rewrite IH.
Qed.

Lemma name_of_remove_descriptions item :
  wf item = true → is_scalar (name_of item) = true →
  name_of (remove_descriptions item) = name_of item.
Proof.
  destruct item as [| | | | | |d]; try done.
  intros [Hd _]%wf_obj. rewrite remove_descriptions_obj. cbn [name_of].
  rewrite remove_descriptions_obj_get by done.
  destruct (dict_get "name" d) as [v|]; [|done]. cbn. by destruct v.
Qed.

Lemma whitelisted_remove_descriptions W items :
  Forall (λ item, wf item = true ∧ is_scalar (name_of item) = true) items →
  List.filter (whitelisted W) (List.map remove_descriptions items)
  = List.map remove_descriptions (List.filter (whitelisted W) items).
Proof.
  induction 1 as [|item items [Hwf Hn] _ IH]; [done|].
  assert (whitelisted W (remove_descriptions item) = whitelisted W item) as Hw.
  { unfold whitelisted. by rewrite name_of_remove_descriptions. }
  cbn [List.map List.filter]. rewrite Hw.
  destruct (whitelisted W item); cbn [List.map]; by rewrite IH.
Qed.

Lemma remove_descriptions_is_obj t : is_obj (remove_descriptions t) = is_obj t.
Proof. by destruct t. Qed.

Lemma remove_descriptions_whitelist_commute d items W :
  wf (JObj d) = true → dict_get "item" d = Some (JArr items) →
  forallb is_obj items = true →
  forallb (λ item, is_scalar (name_of item)) items = true →
  filter_by_whitelist_folders (remove_descriptions (JObj d)) (JArr W)
  = (r ← filter_by_whitelist_folders (JObj d) (JArr W);
     Ok (remove_descriptions r)).
Proof.
  intros Hwf Hitem Hobj Hnames. pose proof Hwf as [Hd Hwfv]%wf_obj.
  rewrite (filter_by_whitelist_folders_items d items W) by done.
  cbn [mbind result_bind]. rewrite !remove_descriptions_obj.
  assert (dict_mem "item" d = true) as Hmem.
  { apply dict_mem_true. by eexists. }
  rewrite (dict_build_nil rd_entry (dict_set _ _ _))
    by by apply keys_distinct_set.
  rewrite omap_rd_entry_set by done.
  rewrite <- (dict_build_nil rd_entry d) by done.
  rewrite remove_descriptions_arr.
  assert (Forall (λ item, wf item = true ∧ is_scalar (name_of item) = true)
            items) as Hall.
  { rewrite Forall_forall in Hwfv.
    pose proof (Hwfv _ (dict_get_elem _ _ _ Hitem)) as Hwfi. cbn [snd] in Hwfi.
    apply wf_arr in Hwfi. apply forallb_Forall in Hnames.
    rewrite Forall_forall in Hwfi, Hnames |- *. auto. }
  rewrite <- whitelisted_remove_descriptions by done.
  apply filter_by_whitelist_folders_items.
  - rewrite remove_descriptions_obj_get, Hitem by done. done.
  - apply forallb_Forall, Forall_forall.
    intros y (x & <- & Hin)%list_elem_of_In%in_map_iff.
    rewrite remove_descriptions_is_obj.
    rewrite forallb_forall in Hobj. by apply Hobj.
Qed.

(** * The trees the endpoint filter leaves alone *)

Lemma filter_by_endpoint_type_item_truthy t e :
  wf t = true → item_truthy (filter_by_endpoint_type t e) = true.
Proof.
  induction t as [| | | | |xs IH|kvs IH] using json_ind; try done.
  - intros Hwf%wf_arr. rewrite filter_by_endpoint_type_arr.
    destruct (truthy _); [|done]. cbn [item_truthy].
    apply forallb_Forall, Forall_forall.
    intros z (x & Hin & -> & _)%filtered_list_elem.
    rewrite Forall_forall in IH, Hwf. auto.
  - intros Hwf. pose proof Hwf as [Hd Hwfv]%wf_obj.
    destruct (filter_by_endpoint_type (JObj kvs) e) as [| | | | |?|r] eqn:E;
      try done; [by apply filter_by_endpoint_type_inv_obj_absurd in E|].
    pose proof (filter_by_endpoint_type_wf (JObj kvs) e) as Hwfr.
    rewrite E in Hwfr. apply wf_obj in Hwfr as [Hdr _].
    destruct (filter_by_endpoint_type_obj_result _ _ _ Hd E) as (Hr & Hget & _).
    cbn [item_truthy]. apply forallb_Forall, Forall_forall.
    intros [k v'] Hin. cbn [fst snd]. apply andb_true_iff. split.
    + destruct (String.eqb_spec k "item") as [->|]; [|done]. cbn [negb orb].
      assert (dict_get "item" r = Some v') as Hv'.
      { apply dict_get_of_elem; [by apply keys_distinct_NoDup|done]. }
      pose proof (filter_by_endpoint_type_obj_item_truthy kvs e r E) as Ht.
      rewrite Hv' in Ht. apply Ht. apply dict_mem_true.
      rewrite Hget in Hv'. destruct (dict_get "item" kvs); [by eexists|done].
    + rewrite Hr in Hin.
      apply list_elem_of_omap in Hin as ([k0 v0] & Hin0 & Hf). cbn in Hf.
      destruct (fe_entry e k0 v0) as [v1|] eqn:Hfe; [|done].
      injection Hf as <- <-. apply fe_entry_Some in Hfe as [-> _].
      rewrite Forall_forall in IH, Hwfv.
      apply (IH (k0, v0)); [done|by apply (Hwfv (k0, v0))].
Qed.

Lemma filter_by_endpoint_type_stable_fixed t e :
  wf t = true → no_null_inside t = true → no_empty_list t = true →
  requests_match e t = true → item_truthy t = true →
  filter_by_endpoint_type t e = t.
Proof.
  induction t as [| | | | |xs IH|kvs IH] using json_ind; try done.
  - intros Hwf%wf_arr Hnn Hne Hrm Hit. cbn in Hnn, Hne, Hrm, Hit.
    apply forallb_Forall in Hnn, Hrm, Hit.
    apply andb_true_iff in Hne as [Hlen Hne]. apply forallb_Forall in Hne.
    rewrite filter_by_endpoint_type_arr.
    assert (filtered_list e xs = xs) as ->.
    { apply omap_fixed. rewrite Forall_forall in IH, Hwf, Hnn, Hne, Hrm, Hit |- *.
      intros x Hin. specialize (Hnn x Hin). cbn in Hnn.
      apply andb_true_iff in Hnn as [Hx Hnn].
      rewrite IH by auto. unfold present. by destruct (is_None x). }
    by destruct xs.
  - intros Hwf Hnn Hne Hrm Hit. pose proof Hwf as [Hd Hwfv]%wf_obj.
    cbn [no_null_inside no_empty_list requests_match item_truthy]
      in Hnn, Hne, Hrm, Hit.
    apply andb_true_iff in Hrm as [Hm Hrm].
    apply forallb_Forall in Hnn, Hne, Hrm, Hit.
    rewrite filter_by_endpoint_type_obj.
    assert (match request_method kvs with
            | Some method => negb (py_eq method (JStr e))
            | None => false
            end = false) as ->.
    { destruct (request_method kvs) as [m|]; [|done].
      apply is_str_eq in Hm as ->. cbn. by rewrite String.eqb_refl. }
    cbn zeta.
    assert (dict_build (fe_entry e) kvs [] = kvs) as ->.
    { rewrite dict_build_nil by done. apply omap_fixed.
      rewrite Forall_forall in IH, Hwfv, Hnn, Hne, Hrm, Hit |- *.
      intros [k v] Hin. specialize (Hnn _ Hin). cbn [fst snd] in *.
      apply andb_true_iff in Hnn as [Hx Hnn].
      specialize (Hit _ Hin). cbn [snd] in Hit.
      apply andb_true_iff in Hit as [_ Hit].
      unfold fe_entry.
      pose proof (IH _ Hin (Hwfv _ Hin) Hnn (Hne _ Hin) (Hrm _ Hin) Hit) as IHv.
      cbn [snd] in IHv. rewrite IHv. unfold present. by destruct (is_None v). }
    destruct (dict_get "item" kvs) as [v|] eqn:Hv.
    + rewrite Forall_forall in Hit.
      specialize (Hit _ (dict_get_elem _ _ _ Hv)). cbn in Hit.
      apply andb_true_iff in Hit as [Ht _]. cbn. rewrite Ht.
      by rewrite andb_false_r.
    + apply dict_mem_false in Hv. by rewrite Hv.
Qed.

Lemma filter_by_endpoint_type_item_lists t e :
  wf t = true → item_lists t = true →
  item_lists (filter_by_endpoint_type t e) = true.
Proof.
  induction t as [| | | | |xs IH|kvs IH] using json_ind; try done.
  - intros Hwf%wf_arr Hil. cbn [item_lists] in Hil. apply forallb_Forall in Hil.
    rewrite filter_by_endpoint_type_arr. destruct (truthy _); [|done].
    cbn [item_lists]. apply forallb_Forall, Forall_forall.
    intros z (x & Hin & -> & _)%filtered_list_elem.
    rewrite Forall_forall in IH, Hwf, Hil. auto.
  - intros Hwf Hil. pose proof Hwf as [Hd Hwfv]%wf_obj.
    apply item_lists_obj in Hil.
    destruct (filter_by_endpoint_type_obj_cases kvs e) as [->| ->]; [done|].
    apply item_lists_obj. apply dict_build_Forall; [constructor|].
    intros k v v' Hin [-> Hne]%fe_entry_Some. cbn [fst snd].
    rewrite Forall_forall in IH, Hwfv, Hil.
    destruct (Hil _ Hin) as [Harr Hilv]. cbn [fst snd] in *. split.
    + intros Hk. specialize (Harr Hk). destruct v; try done.
      revert Hne. rewrite filter_by_endpoint_type_arr. by destruct (truthy _).
    + apply (IH (k, v)); [done|by apply (Hwfv (k, v))|done].
Qed.

(** X14.  On a collection dict whose top-level items are dicts with scalar
    names, removing descriptions before or after the whitelist filter gives
    the same result. *)
Theorem remove_descriptions_filter_by_whitelist_folders_commute
    (d : dict) (items W : list json) :
  wf (JObj d) = true → dict_get "item" d = Some (JArr items) →
  forallb is_obj items = true →
  forallb (λ item, is_scalar (name_of item)) items = true →
  filter_by_whitelist_folders (remove_descriptions (JObj d)) (JArr W)
  = (r ← filter_by_whitelist_folders (JObj d) (JArr W);
     Ok (remove_descriptions r)).
Proof. apply remove_descriptions_whitelist_commute. Qed.

Lemma remove_descriptions_filter_by_whitelist_folders_commute_witness :
  filter_by_whitelist_folders (remove_descriptions two_folders) (JArr [JStr "X"])
  = (r ← filter_by_whitelist_folders two_folders (JArr [JStr "X"]);
     Ok (remove_descriptions r)).
Proof.
  apply (remove_descriptions_filter_by_whitelist_folders_commute
           [("info", JObj [("name", JStr "c")]);
            ("item", JArr [folder "X" [request "A" "GET"]; folder "Y" []])]
           [folder "X" [request "A" "GET"]; folder "Y" []] [JStr "X"]);
    reflexivity.
Defined.

(** X15.  [filter_by_endpoint_type] returns its argument unchanged exactly
    when the argument has no [null] and no empty list inside, only requests
    of the wanted method, and a true value under every [item] key. *)
Theorem filter_by_endpoint_type_fixed_points (t : json) (M : string) :
  wf t = true →
  filter_by_endpoint_type t M = t ↔ stable M t = true.
Proof.
  intros Hwf. unfold stable. rewrite !andb_true_iff. split.
  - intros H. rewrite <- H. split_and!.
    + apply filter_by_endpoint_type_no_null_inside.
    + apply filter_by_endpoint_type_no_empty_list.
    + by apply filter_by_endpoint_type_requests_match.
    + by apply filter_by_endpoint_type_item_truthy.
  - intros [[[Hnn Hne] Hrm] Hit]. by apply filter_by_endpoint_type_stable_fixed.
Qed.

Lemma filter_by_endpoint_type_fixed_points_witness :
  filter_by_endpoint_type (JObj [("item", JArr [request "A" "GET"])]) "GET"
  = JObj [("item", JArr [request "A" "GET"])].
Proof.
  apply (filter_by_endpoint_type_fixed_points
           (JObj [("item", JArr [request "A" "GET"])]) "GET"); reflexivity.
Defined.

(** X16.  On a collection whose [item] keys hold lists, running the endpoint
    filter and the description remover a second time on their output
    changes nothing. *)
Theorem filter_then_remove_descriptions_idempotent (t : json) (M : string) :
  wf t = true → item_lists t = true →
  remove_descriptions
    (filter_by_endpoint_type
       (remove_descriptions (filter_by_endpoint_type t M)) M)
  = remove_descriptions (filter_by_endpoint_type t M).
Proof.
  intros Hwf Hil.
  rewrite <- (remove_descriptions_filter_commute (filter_by_endpoint_type t M)).
  - rewrite filter_by_endpoint_type_fixed_again by done.
    apply remove_descriptions_fixed.
    + apply remove_descriptions_wf.
    + apply remove_descriptions_no_description.
  - apply filter_by_endpoint_type_wf.
  - by apply filter_by_endpoint_type_item_lists.
Qed.

Lemma filter_then_remove_descriptions_idempotent_witness :
  remove_descriptions
    (filter_by_endpoint_type
       (remove_descriptions (filter_by_endpoint_type two_folders "GET")) "GET")
  = remove_descriptions (filter_by_endpoint_type two_folders "GET").
Proof.
  apply (filter_then_remove_descriptions_idempotent two_folders "GET");
    reflexivity.
Defined.
